(** * pyMode dependency installer (install.py): model and verified properties

    A shallow embedding of [install.py].  The script is sequential glue
    around the operating system, so the model is a state-and-exception monad
    over an explicit [World]: a file-system tree, the process's working
    directory, [os.environ], the console, the object bound to [sys.stdout]
    and a trace of the external actions the script performs.  The network and
    the sub-processes started with [subprocess.call] are external
    collaborators; they enter as two oracles, and every theorem holds for all
    of them.

    Conventions.  Paths are resolved lexically, without symbolic links or
    permissions, so a file-system call fails only for the shape of the tree
    (a missing folder, a file where a directory is needed, a name already
    taken).  [args.prefix] and the value of [os.path.expanduser("~")] are
    inputs of [install_deps].  Every modelled exception is a subclass of
    [Exception], which is what the script's handler catches.  Writes to a
    file object reach the file at once. *)

From Stdlib Require Import String Ascii List Bool Arith Lia.
From stdpp Require Import base option list strings gmap fin_maps.
Import ListNotations.
Open Scope string_scope.
Open Scope list_scope.

(** String concatenation computes on literals. *)
#[local] Arguments String.append !s1 s2 : simpl nomatch.

(** ** Paths

    A resolved path is the list of its components from the root.  Python hands
    path strings to the operating system, which resolves them against the
    working directory; [resolve] does this lexically (no symbolic links). *)

Abbreviation path := (list string).

Definition slash : ascii := "/"%char.

(** [split_slash "a/b/" = ["a"; "b"; ""]]. *)
Fixpoint split_slash (s : string) : list string :=
  match s with
  | EmptyString => [EmptyString]
  | String c s' =>
      if Ascii.eqb c slash then EmptyString :: split_slash s'
      else match split_slash s' with
           | [] => [String c EmptyString]
           | x :: xs => String c x :: xs
           end
  end.

Definition is_abs (s : string) : bool :=
  match s with
  | String c _ => Ascii.eqb c slash
  | EmptyString => false
  end.

(** One component pushed on a reversed path: [""] and ["."] stay,
    [".."] goes one level up (the root is its own parent). *)
Definition norm_step (acc : path) (c : string) : path :=
  if String.eqb c "" then acc
  else if String.eqb c "." then acc
  else if String.eqb c ".." then tail acc
  else c :: acc.

Definition resolve (cwd : path) (p : string) : path :=
  rev (fold_left norm_step (split_slash p) (if is_abs p then [] else rev cwd)).

(** The string [os.getcwd()] returns for a resolved path. *)
Fixpoint path_to_string (p : path) : string :=
  match p with
  | [] => "/"
  | [c] => "/" +:+ c
  | c :: p' => "/" +:+ c +:+ path_to_string p'
  end.

Fixpoint no_slash (s : string) : bool :=
  match s with
  | EmptyString => true
  | String c s' => negb (Ascii.eqb c slash) && no_slash s'
  end.

(** A component a directory entry can have. *)
Definition valid_component (c : string) : bool :=
  negb (String.eqb c "") && negb (String.eqb c ".")
  && negb (String.eqb c "..") && no_slash c.

Definition wf_path (p : path) : bool := forallb valid_component p.

Fixpoint is_prefix (p q : path) : bool :=
  match p, q with
  | [], _ => true
  | _ :: _, [] => false
  | a :: p', b :: q' => String.eqb a b && is_prefix p' q'
  end.

Definition parent (p : path) : path := removelast p.

(** ** The world *)

Inductive Node :=
| Dir
| File (content : string).

(** [class Logger]: [terminal] is the object [sys.stdout] was bound to when
    the logger was built, [log] the file opened for appending. *)
Inductive Stream :=
| Console
| Logger (terminal : Stream) (log : path).

Inductive Exn :=
| FileNotFoundError (msg : string)
| FileExistsError (msg : string)
| NotADirectoryError (msg : string)
| IsADirectoryError (msg : string)
| KeyError (msg : string)
| ConnectionError (msg : string)
| OSError (msg : string).

(** [str(e)]. *)
Definition exn_str (e : Exn) : string :=
  match e with
  | FileNotFoundError m | FileExistsError m | NotADirectoryError m
  | IsADirectoryError m | KeyError m | ConnectionError m | OSError m => m
  end.

(** External actions, with the environment the action runs in. *)
Inductive Event :=
| EvGet (url : string) (env : gmap string string)
| EvCall (argv : list string) (cwd : path) (env : gmap string string)
| EvOpen (p : path) (mode : string)
| EvChdir (p : path)
| EvRmtree (p : path).

Record World := mkWorld {
  w_fs : gmap path Node;
  w_cwd : path;
  w_env : gmap string string;
  w_console : string;
  w_stdout : Stream;
  w_trace : list Event
}.

Definition is_dir (fs : gmap path Node) (p : path) : bool :=
  match p with
  | [] => true
  | _ => match fs !! p with Some Dir => true | _ => false end
  end.

Definition is_file (fs : gmap path Node) (p : path) : bool :=
  match fs !! p with Some (File _) => true | _ => false end.

Definition set_fs (fs : gmap path Node) (w : World) : World :=
  mkWorld fs (w_cwd w) (w_env w) (w_console w) (w_stdout w) (w_trace w).
Definition set_cwd (c : path) (w : World) : World :=
  mkWorld (w_fs w) c (w_env w) (w_console w) (w_stdout w) (w_trace w).
Definition set_env (e : gmap string string) (w : World) : World :=
  mkWorld (w_fs w) (w_cwd w) e (w_console w) (w_stdout w) (w_trace w).
Definition set_console (c : string) (w : World) : World :=
  mkWorld (w_fs w) (w_cwd w) (w_env w) c (w_stdout w) (w_trace w).
Definition set_stdout (s : Stream) (w : World) : World :=
  mkWorld (w_fs w) (w_cwd w) (w_env w) (w_console w) s (w_trace w).
Definition log_event (ev : Event) (w : World) : World :=
  mkWorld (w_fs w) (w_cwd w) (w_env w) (w_console w) (w_stdout w)
          (w_trace w ++ [ev]).

(** ** The monad: state, plus Python exceptions

    An exception does not roll the world back: the state at the raise is the
    state the handler sees. *)

Inductive Res (A : Type) :=
| Ok (a : A)
| Raise (e : Exn).
Arguments Ok {A} a.
Arguments Raise {A} e.

Definition M (A : Type) : Type := World -> Res A * World.

Definition ret {A} (a : A) : M A := fun w => (Ok a, w).
Definition raise {A} (e : Exn) : M A := fun w => (Raise e, w).
Definition bind {A B} (m : M A) (f : A -> M B) : M B :=
  fun w => match m w with
           | (Ok a, w') => f a w'
           | (Raise e, w') => (Raise e, w')
           end.
(** [try: m  except Exception as e: h e]. *)
Definition try_except {A} (m : M A) (h : Exn -> M A) : M A :=
  fun w => match m w with
           | (Ok a, w') => (Ok a, w')
           | (Raise e, w') => h e w'
           end.
Definition when (b : bool) (m : M unit) : M unit := if b then m else ret tt.
Definition modify (f : World -> World) : M unit := fun w => (Ok tt, f w).
Definition gets {A} (f : World -> A) : M A := fun w => (Ok (f w), w).

Declare Scope py_scope.
Delimit Scope py_scope with py.
Notation "x <- m ;; k" := (bind m (fun x => k))
  (at level 100, m at next level, k at level 200, right associativity)
  : py_scope.
Notation "m ;; k" := (bind m (fun _ => k))
  (at level 100, k at level 200, right associativity) : py_scope.
Open Scope py_scope.

(** ** Operating-system primitives *)

Fixpoint trailing_slash (s : string) : bool :=
  match s with
  | EmptyString => false
  | String c EmptyString => Ascii.eqb c slash
  | String _ s' => trailing_slash s'
  end.

Definition quoted (p : string) : string := "'" +:+ p +:+ "'".
Definition enoent (p : string) : Exn :=
  FileNotFoundError ("[Errno 2] No such file or directory: " +:+ quoted p).
Definition eexist (p : string) : Exn :=
  FileExistsError ("[Errno 17] File exists: " +:+ quoted p).
Definition enotdir (p : string) : Exn :=
  NotADirectoryError ("[Errno 20] Not a directory: " +:+ quoted p).
Definition eisdir (p : string) : Exn :=
  IsADirectoryError ("[Errno 21] Is a directory: " +:+ quoted p).

(** The path string names an existing directory / regular file.  The empty
    string names nothing, and a trailing slash only ever names a directory. *)
Definition names_dir (w : World) (p : string) : bool :=
  negb (String.eqb p "") && is_dir (w_fs w) (resolve (w_cwd w) p).
Definition names_file (w : World) (p : string) : bool :=
  negb (String.eqb p "") && negb (trailing_slash p)
  && is_file (w_fs w) (resolve (w_cwd w) p).

Definition os_path_exists (p : string) : M bool :=
  gets (fun w => names_dir w p || names_file w p).

Definition os_path_isfile (p : string) : M bool :=
  gets (fun w => names_file w p).

Definition os_remove (p : string) : M unit :=
  fun w =>
    if names_file w p
    then (Ok tt, set_fs (delete (resolve (w_cwd w) p) (w_fs w)) w)
    else if names_dir w p then (Raise (eisdir p), w)
    else (Raise (enoent p), w).

(** [mkdir] for every missing component of [todo] below [base]; a component
    that is a regular file stops the walk. *)
Fixpoint mkdirs_from (p : string) (fs : gmap path Node) (base todo : path)
  : Res unit * gmap path Node :=
  match todo with
  | [] => (Ok tt, fs)
  | c :: rest =>
      let d := base ++ [c] in
      match fs !! d with
      | Some Dir => mkdirs_from p fs d rest
      | Some (File _) => (Raise (enotdir p), fs)
      | None => mkdirs_from p (<[d := Dir]> fs) d rest
      end
  end.

(** [os.makedirs(p)] with the default [exist_ok=False]. *)
Definition os_makedirs (p : string) : M unit :=
  fun w =>
    let q := resolve (w_cwd w) p in
    if String.eqb p "" then (Raise (enoent p), w)
    else if is_dir (w_fs w) q || is_file (w_fs w) q then (Raise (eexist p), w)
    else let '(r, fs') := mkdirs_from p (w_fs w) [] q in (r, set_fs fs' w).

Definition os_getcwd : M string := gets (fun w => path_to_string (w_cwd w)).

Definition os_chdir (p : string) : M unit :=
  fun w =>
    let q := resolve (w_cwd w) p in
    if names_dir w p then (Ok tt, log_event (EvChdir q) (set_cwd q w))
    else if is_file (w_fs w) q then (Raise (enotdir p), w)
    else (Raise (enoent p), w).

Definition shutil_rmtree (p : string) : M unit :=
  fun w =>
    let q := resolve (w_cwd w) p in
    if names_dir w p
    then (Ok tt,
          log_event (EvRmtree q)
            (set_fs (filter (fun kv => is_prefix q kv.1 = false) (w_fs w)) w))
    else if is_file (w_fs w) q then (Raise (enotdir p), w)
    else (Raise (enoent p), w).

(** [os.environ]. *)
Definition environ_contains (k : string) : M bool :=
  gets (fun w => bool_decide (is_Some (w_env w !! k))).
Definition environ_del (k : string) : M unit :=
  fun w => match w_env w !! k with
           | Some _ => (Ok tt, set_env (delete k (w_env w)) w)
           | None => (Raise (KeyError (quoted k)), w)
           end.
Definition environ_set (k v : string) : M unit :=
  modify (fun w => set_env (<[k := v]> (w_env w)) w).

(** Walking down [todo] from [base], the first component that is not a
    directory is a regular file (and not a missing name). *)
Fixpoint file_on_way (fs : gmap path Node) (base todo : path) : bool :=
  match todo with
  | [] => false
  | c :: rest =>
      let d := base ++ [c] in
      match fs !! d with
      | Some Dir => file_on_way fs d rest
      | Some (File _) => true
      | None => false
      end
  end.

(** The error for a path [p] whose folder [dir] cannot be entered: [ENOTDIR]
    when a regular file is in the way, [ENOENT] when a name is missing. *)
Definition no_folder (fs : gmap path Node) (dir : path) (p : string) : Exn :=
  if file_on_way fs [] dir then enotdir p else enoent p.

(** [open(p, mode)] for the modes the script uses; the result is the file the
    handle writes to.  ["w"] and ["wb"] truncate, ["a"] keeps the content. *)
Definition open_file (p mode : string) : M path :=
  fun w =>
    let q := resolve (w_cwd w) p in
    if String.eqb p "" then (Raise (enoent p), w)
    else if is_dir (w_fs w) q || trailing_slash p then (Raise (eisdir p), w)
    else if negb (is_dir (w_fs w) (parent q))
    then (Raise (no_folder (w_fs w) (parent q) p), w)
    else
      let keep := match w_fs w !! q with
                  | Some (File c) => if String.eqb mode "a" then c else ""
                  | _ => ""
                  end in
      (Ok q,
       log_event (EvOpen q mode) (set_fs (<[q := File keep]> (w_fs w)) w)).

Definition append_to (msg : string) (n : Node) : Node :=
  match n with
  | Dir => Dir
  | File c => File (c +:+ msg)
  end.

(** [f.write(msg)] on an open handle. *)
Definition file_write (h : path) (msg : string) : M unit :=
  modify (fun w => set_fs (alter (append_to msg) h (w_fs w)) w).

(** [stream.write(msg)]: [Logger.write] forwards to its terminal, then to its
    log. *)
Fixpoint stream_write (s : Stream) (msg : string) (w : World) : World :=
  match s with
  | Console => set_console (w_console w +:+ msg) w
  | Logger t l =>
      let w' := stream_write t msg w in
      set_fs (alter (append_to msg) l (w_fs w')) w'
  end.

Definition stdout_write (msg : string) : M unit :=
  modify (fun w => stream_write (w_stdout w) msg w).

Definition newline : string := String (ascii_of_nat 10) "".

(** [print(s)]: the text, then the line end, both through [sys.stdout]. *)
Definition print (s : string) : M unit :=
  stdout_write s ;; stdout_write newline.

(** ** The script *)

(** pymode parameters and package parameters. *)
Definition pymode_deps : string := ".pymode_deps".
Definition PETSC_VERSION : string := "3.12.1".
Definition SLEPC_VERSION : string := "3.12.1".

Definition esc : string := String (ascii_of_nat 27) "".

(** [Logger.__init__(self, log_fname)]. *)
Definition Logger_init (log_fname : string) : M Stream :=
  terminal <- gets w_stdout ;;
  old <- os_path_isfile log_fname ;;
  when old (os_remove log_fname) ;;
  log <- open_file log_fname "a" ;;
  ret (Logger terminal log).

(** [Logger.write(self, message)]. *)
Definition Logger_write (self : Stream) (message : string) : M unit :=
  modify (stream_write self message).

Definition write_deps_file (home_dir include_dir install_dir : string)
  : M unit :=
  let dep_fname := home_dir +:+ "/" +:+ pymode_deps in
  fdep <- open_file dep_fname "w" ;;
  file_write fdep ("PETSC_DIR=" +:+ install_dir +:+ newline) ;;
  file_write fdep ("PETSC_ARCH=" +:+ newline) ;;
  file_write fdep ("SLEPC_DIR=" +:+ install_dir +:+ newline).

(** ["".join(["\033[92m", s, "\033[0m"])]. *)
Definition colored (s : string) : string :=
  esc +:+ "[92m" +:+ s +:+ esc +:+ "[0m".

Definition print_message (s : string) : M unit :=
  print (colored s).

Definition install_begin (build_dir : string) : M unit :=
  os_chdir build_dir.

Definition install_end (start_dir build_dir : string) : M unit :=
  os_chdir start_dir ;;
  there <- os_path_exists build_dir ;;
  when there (shutil_rmtree build_dir).

Section Script.

(** The outside world: what an HTTP GET of a URL gives, and what running a
    command does to the file system (a child process can change neither the
    script's working directory nor its environment).  [call] raises when the
    program cannot be started; an exit status is returned and, as in the
    script, ignored. *)
Variable http_get : string -> Res string.
Variable run_cmd :
  list string -> path -> gmap string string -> gmap path Node ->
  Res nat * gmap path Node.

(** [requests.get(url, allow_redirects=True).content]. *)
Definition requests_get (url : string) : M string :=
  fun w => (http_get url, log_event (EvGet url (w_env w)) w).

(** [subprocess.call(argv)]. *)
Definition call (argv : list string) : M nat :=
  fun w =>
    let '(r, fs') := run_cmd argv (w_cwd w) (w_env w) (w_fs w) in
    (r, set_fs fs' (log_event (EvCall argv (w_cwd w) (w_env w)) w)).

Definition petsc_url : string :=
  "http://ftp.mcs.anl.gov/pub/petsc/release-snapshots/petsc-"
  +:+ PETSC_VERSION +:+ ".tar.gz".
Definition petsc_fname : string := "petsc-" +:+ PETSC_VERSION +:+ ".tar.gz".
Definition petsc_folder : string := "petsc-" +:+ PETSC_VERSION.

Definition petsc_configure (install_dir : string) : list string :=
  [ "./configure"; "--with-scalar-type=complex"; "--with-mpi=1";
    "--COPTFLAGS='-O3'"; "--FOPTFLAGS='-O3'"; "--CXXOPTFLAGS='-O3'";
    "--with-debugging=0"; "--prefix=" +:+ install_dir;
    "--download-scalapack"; "--download-mumps"; "--download-openblas" ].

Definition install_petsc (install_dir : string) : M unit :=
  (* clean up environment variables *)
  has_dir <- environ_contains "PETSC_DIR" ;;
  when has_dir (environ_del "PETSC_DIR") ;;
  has_arch <- environ_contains "PETSC_ARCH" ;;
  when has_arch (environ_del "PETSC_ARCH") ;;
  (* get PETSc *)
  print_message "Downloading PETSc..." ;;
  r <- requests_get petsc_url ;;
  fsave <- open_file petsc_fname "wb" ;;
  file_write fsave r ;;
  (* unzip package *)
  call ["tar"; "xvzf"; petsc_fname] ;;
  os_chdir petsc_folder ;;
  (* compile *)
  print_message "Compiling PETSc..." ;;
  call (petsc_configure install_dir) ;;
  call ["make"; "all"; "test"] ;;
  print_message "Installing PETSc..." ;;
  call ["make"; "install"] ;;
  environ_set "PETSC_DIR" install_dir ;;
  (* cleanup *)
  print_message "Cleaning up working directory..." ;;
  os_chdir "../" ;;
  shutil_rmtree petsc_folder.

Definition slepc_url : string :=
  "http://slepc.upv.es/download/distrib/slepc-" +:+ SLEPC_VERSION
  +:+ ".tar.gz".
Definition slepc_fname : string := "slepc-" +:+ SLEPC_VERSION +:+ ".tar.gz".
Definition slepc_folder : string := "slepc-" +:+ SLEPC_VERSION.

Definition install_slepc (install_dir : string) : M unit :=
  (* SLEPC_DIR environment var cant be set *)
  has_dir <- environ_contains "SLEPC_DIR" ;;
  when has_dir (environ_del "SLEPC_DIR") ;;
  (* get the SLEPc source *)
  print_message "Downloading SLEPc source..." ;;
  r <- requests_get slepc_url ;;
  fsave <- open_file slepc_fname "wb" ;;
  file_write fsave r ;;
  (* unzip package *)
  call ["tar"; "xvzf"; slepc_fname] ;;
  (* compile and install *)
  print_message "Compiling SLEPc..." ;;
  os_chdir slepc_folder ;;
  call ["./configure"; "--prefix=" +:+ install_dir] ;;
  call ["make"; "all"] ;;
  call ["make"; "install"] ;;
  call ["make"; "test"] ;;
  (* cleanup *)
  os_chdir "../" ;;
  shutil_rmtree slepc_folder ;;
  os_remove slepc_fname.

(** [install_deps], in the segments its comments mark.  [prefix] is
    [args.prefix] as [parse_args] leaves it, [home_dir] the value of
    [os.path.expanduser("~")]. *)

(** "setup logging". *)
Definition setup_logging : M unit :=
  lg <- Logger_init "install.log" ;;
  modify (set_stdout lg).

(** "setup install directory" and "setup installation subdirs": the
    result is [(install_dir, include_dir, lib_dir)]. *)
Definition resolve_config (prefix : option string) (home_dir : string)
  : M (string * string * string) :=
  install_dir <- match prefix with
                 | None => ret (home_dir +:+ "/.pymode/")
                 | Some p => print p ;; ret p
                 end ;;
  there <- os_path_exists install_dir ;;
  when (negb there) (os_makedirs install_dir) ;;
  let include_dir := install_dir +:+ "include/" in
  let lib_dir := install_dir +:+ "lib/" in
  there <- os_path_exists include_dir ;;
  when (negb there) (os_makedirs include_dir) ;;
  there <- os_path_exists lib_dir ;;
  when (negb there) (os_makedirs lib_dir) ;;
  ret (install_dir, include_dir, lib_dir).

Definition build_dir : string := "./build/".

(** "setup working directory": the result is [current_dir]. *)
Definition setup_workdir : M string :=
  current_dir <- os_getcwd ;;
  there <- os_path_exists build_dir ;;
  when (negb there) (os_makedirs build_dir) ;;
  ret current_dir.

(** The body of the [try]. *)
Definition try_body (home_dir include_dir install_dir : string) : M unit :=
  install_petsc install_dir ;;
  install_slepc install_dir ;;
  (* install_end(current_dir, build_dir) *)
  write_deps_file home_dir include_dir install_dir.

(** [except Exception as e]. *)
Definition handler (current_dir : string) (e : Exn) : M unit :=
  print (exn_str e) ;;
  install_end current_dir build_dir.

Definition final_message : string := "Finished installing pymode dependencies!".

Definition install_deps (prefix : option string) (home_dir : string)
  : M unit :=
  setup_logging ;;
  cfg <- resolve_config prefix home_dir ;;
  let '(install_dir, include_dir, lib_dir) := cfg in
  current_dir <- setup_workdir ;;
  (* install dependencies *)
  install_begin build_dir ;;
  try_except (try_body home_dir include_dir install_dir)
             (handler current_dir) ;;
  print_message final_message.

End Script.



(** ** Specification vocabulary *)

(** Everything [install_deps] does before it enters the [try]: the result is
    [(install_dir, include_dir, lib_dir, current_dir)]. *)
Definition prelude (prefix : option string) (home_dir : string)
  : M (string * string * string * string) :=
  setup_logging ;;
  cfg <- resolve_config prefix home_dir ;;
  current_dir <- setup_workdir ;;
  install_begin build_dir ;;
  ret (cfg, current_dir).

(** [for m in msgs: sys.stdout.write(m)]. *)
Fixpoint write_all (msgs : list string) : M unit :=
  match msgs with
  | [] => ret tt
  | m :: rest => stdout_write m ;; write_all rest
  end.

(** The event opens a file called [.pymode_deps]: a write of the manifest. *)
Definition opens_manifest (ev : Event) : bool :=
  match ev with
  | EvOpen q _ => match last q with
                  | Some name => String.eqb name pymode_deps
                  | None => false
                  end
  | _ => false
  end.

Definition manifest_writes (w : World) : nat :=
  length (List.filter opens_manifest (w_trace w)).

(** The environment an external action (a download, a sub-process) sees. *)
Definition action_env (ev : Event) : option (gmap string string) :=
  match ev with
  | EvGet _ env | EvCall _ _ env => Some env
  | _ => None
  end.

(** No external action of [ev] sees any of the variables [keys]. *)
Definition unset_in (keys : list string) (ev : Event) : Prop :=
  match action_env ev with
  | Some env => Forall (fun k => env !! k = None) keys
  | None => True
  end.

(** [nodes_kept]: the working directory stays, and no directory or regular
    file disappears. *)
Definition nodes_kept (w w' : World) : Prop :=
  w_cwd w' = w_cwd w
  /\ forall p,
       (is_dir (w_fs w) p = true -> is_dir (w_fs w') p = true)
       /\ (is_file (w_fs w) p = true -> is_file (w_fs w') p = true).

(** What [os.path.exists(p)] answers in [w]. *)
Definition exists_at (w : World) (p : string) : bool :=
  names_dir w p || names_file w p.

(** None of the variables [keys] is set in [os.environ]. *)
Definition absent (keys : list string) (w : World) : Prop :=
  Forall (fun k => w_env w !! k = None) keys.

(** From [w] to [w'] the trace only grows, by actions that do not see
    [keys]. *)
Definition quiet (keys : list string) (w w' : World) : Prop :=
  exists evs, w_trace w' = w_trace w ++ evs /\ Forall (unset_in keys) evs.

(** Started without [keys], the computation ends without them and is
    [quiet]. *)
Definition clean (keys : list string) (w w' : World) : Prop :=
  absent keys w -> absent keys w' /\ quiet keys w w'.

(** Started without [keys], the computation is [quiet]; the variables may
    be set again by the time it ends. *)
Definition weak (keys : list string) (w w' : World) : Prop :=
  absent keys w -> quiet keys w w'.

(** Frames: what a computation leaves alone, whatever its outcome. *)

Definition preserves (R : World -> World -> Prop) {A} (m : M A) : Prop :=
  forall w, R w (m w).2.

(** [keeps f]: the observation [f] of the world does not change. *)
Definition keeps {X} (f : World -> X) (w w' : World) : Prop := f w' = f w.

(** [dirs_kept]: no directory disappears. *)
Definition dirs_kept (w w' : World) : Prop :=
  forall p, is_dir (w_fs w) p = true -> is_dir (w_fs w') p = true.

(** Python's [str.join] with an empty separator. *)
Fixpoint join_all (msgs : list string) : string :=
  match msgs with
  | [] => ""
  | m :: rest => m +:+ join_all rest
  end.

(** The install root the resolver is specified to choose. *)
Definition install_root (prefix : option string) (home_dir : string) : string :=
  match prefix with
  | None => home_dir +:+ "/.pymode/"
  | Some p => p
  end.

(** The external actions of a successful [install_petsc install_dir],
    started in directory [b] with the (sanitised) environment [env]. *)
Definition petsc_actions (install_dir : string) (b : path)
    (env : gmap string string) : list Event :=
  [ EvGet petsc_url env;
    EvOpen (b ++ [petsc_fname]) "wb";
    EvCall ["tar"; "xvzf"; petsc_fname] b env;
    EvChdir (b ++ [petsc_folder]);
    EvCall (petsc_configure install_dir) (b ++ [petsc_folder]) env;
    EvCall ["make"; "all"; "test"] (b ++ [petsc_folder]) env;
    EvCall ["make"; "install"] (b ++ [petsc_folder]) env;
    EvChdir b;
    EvRmtree (b ++ [petsc_folder]) ].

(** The same for [install_slepc]. *)
Definition slepc_actions (install_dir : string) (b : path)
    (env : gmap string string) : list Event :=
  [ EvGet slepc_url env;
    EvOpen (b ++ [slepc_fname]) "wb";
    EvCall ["tar"; "xvzf"; slepc_fname] b env;
    EvChdir (b ++ [slepc_folder]);
    EvCall ["./configure"; "--prefix=" +:+ install_dir] (b ++ [slepc_folder])
           env;
    EvCall ["make"; "all"] (b ++ [slepc_folder]) env;
    EvCall ["make"; "install"] (b ++ [slepc_folder]) env;
    EvCall ["make"; "test"] (b ++ [slepc_folder]) env;
    EvChdir b;
    EvRmtree (b ++ [slepc_folder]) ].

(** Every environment the action runs in satisfies [P]. *)
Definition runs_in (P : gmap string string -> Prop) (ev : Event) : Prop :=
  forall env, action_env ev = Some env -> P env.

(** Started in an environment with [P], the computation ends in one with
    [P], and all its external actions run in one. *)
Definition env_inv (P : gmap string string -> Prop) (w w' : World) : Prop :=
  P (w_env w) ->
  P (w_env w')
  /\ exists evs, w_trace w' = w_trace w ++ evs /\ Forall (runs_in P) evs.

(** The log [l] holds what the console has received beyond [base], and
    [sys.stdout] is the logger over the console. *)
Definition mirror (l : path) (base : string) (w : World) : Prop :=
  w_stdout w = Logger Console l
  /\ exists c, w_fs w !! l = Some (File c) /\ w_console w = base +:+ c.

Definition mirror_at (l : path) (base : string) (c : path) (w : World)
  : Prop :=
  mirror l base w /\ w_cwd w = c.

(** [hoare P m Q E]: from a world with [P], [m] ends with [Q] if it returns
    and with [E] if it raises. *)
Definition hoare {A} (P : World -> Prop) (m : M A)
    (Q : A -> World -> Prop) (E : World -> Prop) : Prop :=
  forall w, P w ->
    match m w with
    | (Ok a, w') => Q a w'
    | (Raise _, w') => E w'
    end.

(** What the mirror invariant reads of a world. *)
Definition log_view (l : path) (w : World)
  : path * Stream * string * option Node :=
  (w_cwd w, w_stdout w, w_console w, w_fs w !! l).

(** [call] with every exit status replaced by [f] of it. *)
Definition with_status (f : nat -> nat)
    (run_cmd : list string -> path -> gmap string string -> gmap path Node ->
               Res nat * gmap path Node)
    (argv : list string) (cwd : path) (env : gmap string string)
    (fs : gmap path Node) : Res nat * gmap path Node :=
  let '(r, fs') := run_cmd argv cwd env fs in
  (match r with Ok n => Ok (f n) | Raise e => Raise e end, fs').

(** Two computations that do the same from every world. *)
Definition same_run {A} (m m' : M A) : Prop := forall w, m w = m' w.

(** ** Sample worlds

  Concrete oracles and initial states on which the theorems below are
  evaluated. *)
Module Sample.

Definition net_ok (url : string) : Res string := Ok ("<" +:+ url +:+ ">").
Definition net_down (url : string) : Res string :=
  Raise (ConnectionError "Max retries exceeded").

(** [tar] unpacks the archive into a folder of the working directory; the
    build tools leave the tree alone. *)
Definition tools_ok (argv : list string) (cwd : path)
    (env : gmap string string) (fs : gmap path Node)
  : Res nat * gmap path Node :=
  match argv with
  | ["tar"; _; f] =>
      if String.eqb f petsc_fname
      then (Ok 0, <[cwd ++ [petsc_folder] := Dir]> fs)
      else (Ok 0, <[cwd ++ [slepc_folder] := Dir]> fs)
  | _ => (Ok 0, fs)
  end.

(** [tar] fails with exit status 2 and unpacks nothing. *)
Definition tools_broken (argv : list string) (cwd : path)
    (env : gmap string string) (fs : gmap path Node)
  : Res nat * gmap path Node :=
  match argv with
  | "tar" :: _ => (Ok 2, fs)
  | _ => (Ok 0, fs)
  end.

Definition home : string := "/home/u".
Definition start : path := ["home"; "u"; "work"].

Definition fs0 : gmap path Node :=
  <[ ["home"] := Dir ]>
    (<[ ["home"; "u"] := Dir ]>
       (<[ ["home"; "u"; "notes.txt"] := File "todo" ]>
          (<[ start := Dir ]> ∅))).

Definition env0 : gmap string string :=
  <[ "PETSC_DIR" := "/old/petsc" ]>
    (<[ "PETSC_ARCH" := "arch-old" ]> (<[ "SLEPC_DIR" := "/old/slepc" ]> ∅)).

Definition w0 : World := mkWorld fs0 start env0 "" Console [].

(** The world at the [try], for the default prefix. *)
Definition w1 : World := (prelude None home w0).2.
Definition root : string := home +:+ "/.pymode/".

Definition inc : string := root +:+ "include/".
Definition lib : string := root +:+ "lib/".
Definition cur : string := "/home/u/work".

(** The world after the [try] body: when everything works, and when the
    network is down. *)
Definition w2_ok : World := (try_body net_ok tools_ok home inc root w1).2.
Definition w2_down : World := (try_body net_down tools_ok home inc root w1).2.
Definition e_down : Exn := ConnectionError "Max retries exceeded".
Definition w3_down : World := (handler cur e_down w2_down).2.

(** A prefix below a regular file, and the prefix of the script's own
    documentation. *)
Definition bad_prefix : string := "/home/u/notes.txt/deps/".
Definition doc_prefix : string := "/opt/local".

(** [tar] goes wrong badly: it unpacks nothing and wipes the disk. *)
Definition tools_wipe (argv : list string) (cwd : path)
    (env : gmap string string) (fs : gmap path Node)
  : Res nat * gmap path Node :=
  match argv with
  | "tar" :: _ => (Ok 1, ∅)
  | _ => (Ok 0, fs)
  end.

Definition w2_wipe : World := (try_body net_ok tools_wipe home inc root w1).2.

(** A machine where [/opt/local] is an existing directory. *)
Definition w_opt : World :=
  set_fs (<[ ["opt"] := Dir ]> (<[ ["opt"; "local"] := Dir ]> fs0)) w0.

End Sample.

(** ** Paths: lemmas *)

Lemma split_slash_nonempty s : split_slash s <> [].
Proof.
  destruct s as [|c s]; simpl; [done|].
  destruct (Ascii.eqb c slash); [done|]. by destruct (split_slash s).
Qed.

Lemma split_slash_app_slash h s :
  split_slash (h +:+ String slash s) = split_slash h ++ split_slash s.
Proof.
  induction h as [|c h IH]; simpl; [done|].
  destruct (Ascii.eqb c slash); [by rewrite IH|].
  rewrite IH. pose proof (split_slash_nonempty h).
  by destruct (split_slash h).
Qed.

Lemma split_slash_no_slash c s :
  no_slash c = true ->
  split_slash (c +:+ s) =
  match split_slash s with
  | x :: xs => (c +:+ x) :: xs
  | [] => [c]
  end.
Proof.
  induction c as [|a c IH]; simpl; intros H.
  - pose proof (split_slash_nonempty s). by destruct (split_slash s).
  - apply andb_prop in H as [Ha Hc]. apply negb_true_iff in Ha. rewrite Ha.
    rewrite (IH Hc). pose proof (split_slash_nonempty s).
    by destruct (split_slash s).
Qed.

Lemma string_app_nil_r (s : string) : s +:+ "" = s.
Proof. induction s; simpl; congruence. Qed.

Lemma fold_norm_valid p acc :
  wf_path p = true -> fold_left norm_step p acc = rev p ++ acc.
Proof.
  revert acc. induction p as [|c p IH]; simpl; intros acc H; [done|].
  apply andb_prop in H as [Hc Hp]. rewrite (IH _ Hp).
  unfold valid_component in Hc.
  repeat (apply andb_prop in Hc as [Hc ?]).
  unfold norm_step.
  repeat match goal with
         | H : negb _ = true |- _ => apply negb_true_iff in H; rewrite H
         end.
  by rewrite <- app_assoc.
Qed.

Lemma split_path_to_string p :
  wf_path p = true -> p <> [] -> split_slash (path_to_string p) = "" :: p.
Proof.
  induction p as [|c p IH]; [done|]. intros H _.
  simpl in H. apply andb_prop in H as [Hc Hp].
  assert (Hns : no_slash c = true).
  { unfold valid_component in Hc. by apply andb_prop in Hc as [_ ?]. }
  destruct p as [|d p].
  - simpl. f_equal. rewrite <- (string_app_nil_r c) at 1.
    rewrite (split_slash_no_slash _ _ Hns). simpl. by rewrite string_app_nil_r.
  - change (path_to_string (c :: d :: p))
      with (String slash (c +:+ path_to_string (d :: p))).
    change (split_slash (String slash ?s)) with ("" :: split_slash s).
    f_equal. rewrite (split_slash_no_slash _ _ Hns), IH by done.
    by rewrite string_app_nil_r.
Qed.

Lemma is_abs_path_to_string p : is_abs (path_to_string p) = true.
Proof. by destruct p as [|c [|d p]]. Qed.

(** [os.chdir(os.getcwd())] stays where it is. *)
Lemma resolve_path_to_string cwd p :
  wf_path p = true -> resolve cwd (path_to_string p) = p.
Proof.
  intros H. unfold resolve. rewrite is_abs_path_to_string.
  destruct p as [|c p]; [done|].
  rewrite split_path_to_string by done.
  change (fold_left norm_step ("" :: c :: p) [])
    with (fold_left norm_step (c :: p) []).
  rewrite fold_norm_valid by done. by rewrite app_nil_r, rev_involutive.
Qed.

Lemma path_to_string_nonempty p : String.eqb (path_to_string p) "" = false.
Proof. by destruct p as [|c [|d p]]. Qed.

Lemma resolve_build cwd : resolve cwd build_dir = cwd ++ ["build"].
Proof. unfold resolve. cbn. by rewrite rev_involutive. Qed.

Lemma resolve_child cwd (name : string) :
  valid_component name = true -> resolve cwd name = cwd ++ [name].
Proof.
  intros H. unfold resolve.
  assert (Hns : no_slash name = true).
  { unfold valid_component in H. by apply andb_prop in H as [_ ?]. }
  assert (is_abs name = false) as ->.
  { destruct name as [|a s]; [done|]. simpl in *.
    apply andb_prop in Hns as [Ha _]. by apply negb_true_iff in Ha. }
  rewrite <- (string_app_nil_r name) at 1.
  rewrite (split_slash_no_slash _ _ Hns). cbn [split_slash].
  rewrite string_app_nil_r.
  rewrite (fold_norm_valid [name]); [|by simpl; rewrite H].
  simpl. by rewrite rev_involutive.
Qed.

Lemma resolve_up cwd (name : string) : resolve (cwd ++ [name]) "../" = cwd.
Proof.
  unfold resolve. cbn. rewrite rev_unit. cbn. by rewrite rev_involutive.
Qed.

Lemma is_prefix_app_self p (x : string) : is_prefix (p ++ [x]) p = false.
Proof.
  induction p as [|a p IH]; simpl; [done|]. by rewrite IH, andb_false_r.
Qed.

Lemma app_singleton_neq (p : path) (x : string) : p ++ [x] <> p.
Proof.
  intros H. apply (f_equal length) in H. rewrite length_app in H.
  simpl in H. lia.
Qed.

(** ** The monad: lemmas *)

Lemma bind_Ok_inv {A B} (m : M A) (f : A -> M B) w b w' :
  bind m f w = (Ok b, w') ->
  exists a w1, m w = (Ok a, w1) /\ f a w1 = (Ok b, w').
Proof.
  unfold bind. destruct (m w) as [[a|e] w1]; [eauto|discriminate].
Qed.

Lemma bind_Ok {A B} (m : M A) (f : A -> M B) w a w1 :
  m w = (Ok a, w1) -> bind m f w = f a w1.
Proof. unfold bind. by intros ->. Qed.

Lemma bind_Raise {A B} (m : M A) (f : A -> M B) w e w1 :
  m w = (Raise e, w1) -> bind m f w = (Raise e, w1).
Proof. unfold bind. by intros ->. Qed.

Lemma world_eta w :
  mkWorld (w_fs w) (w_cwd w) (w_env w) (w_console w) (w_stdout w) (w_trace w)
  = w.
Proof. by destruct w. Qed.

Ltac wsimpl :=
  cbn [w_fs w_cwd w_env w_console w_stdout w_trace set_fs set_cwd set_env
       set_console set_stdout log_event fst snd] in *.


(** *** Frames *)

#[local] Instance keeps_preorder {X} (f : World -> X) : PreOrder (keeps f).
Proof. split; unfold keeps; [by intros ?|]. intros x y z H1 H2. congruence. Qed.

Lemma preserves_bind R `{!PreOrder R} {A B} (m : M A) (f : A -> M B) :
  preserves R m -> (forall a, preserves R (f a)) -> preserves R (bind m f).
Proof.
  intros Hm Hf w. unfold bind. specialize (Hm w).
  destruct (m w) as [[a|e] w1]; simpl in *; [|done].
  by etrans; [|apply Hf].
Qed.

Lemma preserves_ret R `{!PreOrder R} {A} (a : A) : preserves R (ret a).
Proof. by intros w. Qed.

Lemma preserves_gets R `{!PreOrder R} {A} (f : World -> A) :
  preserves R (gets f).
Proof. by intros w. Qed.

Lemma preserves_when R `{!PreOrder R} b m :
  preserves R m -> preserves R (when b m).
Proof. destruct b; [done|]. intros _. by apply preserves_ret. Qed.

Lemma preserves_try R `{!PreOrder R} {A} (m : M A) h :
  preserves R m -> (forall e, preserves R (h e)) ->
  preserves R (try_except m h).
Proof.
  intros Hm Hh w. unfold try_except. specialize (Hm w).
  destruct (m w) as [[a|e] w1]; simpl in *; [done|].
  by etrans; [|apply Hh].
Qed.

Lemma preserves_Ok R {A} (m : M A) w a w' :
  preserves R m -> m w = (Ok a, w') -> R w w'.
Proof. intros H Hm. specialize (H w). by rewrite Hm in H. Qed.

Lemma preserves_Raise R {A} (m : M A) w e w' :
  preserves R m -> m w = (Raise e, w') -> R w w'.
Proof. intros H Hm. specialize (H w). by rewrite Hm in H. Qed.

(** *** [sys.stdout.write] *)

Lemma stream_write_cwd s msg w : w_cwd (stream_write s msg w) = w_cwd w.
Proof. induction s; simpl; by wsimpl. Qed.
Lemma stream_write_env s msg w : w_env (stream_write s msg w) = w_env w.
Proof. induction s; simpl; by wsimpl. Qed.
Lemma stream_write_trace s msg w : w_trace (stream_write s msg w) = w_trace w.
Proof. induction s; simpl; by wsimpl. Qed.
Lemma stream_write_stdout s msg w :
  w_stdout (stream_write s msg w) = w_stdout w.
Proof. induction s; simpl; by wsimpl. Qed.

(** Whatever [sys.stdout] is bound to, the console receives the message
    once. *)
Lemma stream_write_console s msg w :
  w_console (stream_write s msg w) = w_console w +:+ msg.
Proof. induction s; simpl; by wsimpl. Qed.

Lemma is_dir_alter f fs h p :
  (forall n, f n = Dir <-> n = Dir) -> is_dir (alter f h fs) p = is_dir fs p.
Proof.
  intros Hf. unfold is_dir. destruct p as [|c p]; [done|].
  rewrite lookup_alter. case_decide as Hd; [|done]. subst h.
  destruct (fs !! (c :: p)) as [n|] eqn:E; simpl; [|done].
  destruct n as [|x]; [by rewrite (proj2 (Hf Dir))|].
  destruct (f (File x)) eqn:E2; [|done]. by apply (proj1 (Hf _)) in E2.
Qed.

Lemma append_to_dir msg n : append_to msg n = Dir <-> n = Dir.
Proof. by destruct n. Qed.

Lemma stream_write_is_dir s msg w p :
  is_dir (w_fs (stream_write s msg w)) p = is_dir (w_fs w) p.
Proof.
  induction s as [|t IH l]; simpl; wsimpl; [done|].
  rewrite is_dir_alter; [done|]. apply append_to_dir.
Qed.

(** *** Frames of the primitives *)

Ltac prim_unfold :=
  unfold os_path_exists, os_path_isfile, os_remove, os_makedirs, os_getcwd,
    os_chdir, shutil_rmtree, environ_contains, environ_del, environ_set,
    open_file, file_write, stdout_write, requests_get, call, gets, modify,
    ret, raise in *.

(** Structural steps shared by all frame proofs; [prim] closes the leaves. *)
Ltac frame_with prim :=
  repeat lazymatch goal with
    | |- preserves _ (bind _ _) => apply preserves_bind; [apply _ | | intros ?]
    | |- preserves _ (when _ _) => apply preserves_when; [apply _ |]
    | |- preserves _ (ret _) => apply preserves_ret; apply _
    | |- preserves _ (gets _) => apply preserves_gets; apply _
    | |- preserves _ (try_except _ _) =>
        apply preserves_try; [apply _ | | intros ?]
    | |- preserves _ (match ?x with _ => _ end) => destruct x
    | |- preserves _ (print _) => unfold print
    | |- preserves _ (print_message _) => unfold print_message
    | |- preserves _ (Logger_init _) => unfold Logger_init
    | |- preserves _ setup_logging => unfold setup_logging
    | |- preserves _ (install_begin _) => unfold install_begin
    | |- preserves _ (install_end _ _) => unfold install_end
    | |- preserves _ (handler _ _) => unfold handler
    | |- preserves _ (write_deps_file _ _ _) => unfold write_deps_file
    | |- preserves _ (resolve_config _ _) => unfold resolve_config
    | |- preserves _ setup_workdir => unfold setup_workdir
    | |- preserves _ (install_petsc _ _ _) => unfold install_petsc
    | |- preserves _ (install_slepc _ _ _) => unfold install_slepc
    | |- preserves _ _ => prim
    end.

Ltac keeps_cwd_prim :=
  let w := fresh "w" in
  intros w; prim_unfold; unfold keeps; repeat case_match; wsimpl;
  rewrite ?stream_write_cwd; done.

Lemma manifest_writes_log ev w :
  opens_manifest ev = false ->
  manifest_writes (log_event ev w) = manifest_writes w.
Proof.
  intros H. unfold manifest_writes. wsimpl.
  rewrite List.filter_app. simpl. rewrite H. by rewrite app_nil_r.
Qed.

Lemma manifest_writes_snoc ev w w' :
  w_trace w' = w_trace w ++ [ev] -> opens_manifest ev = false ->
  manifest_writes w' = manifest_writes w.
Proof.
  intros Ht H. unfold manifest_writes. rewrite Ht, List.filter_app. simpl.
  rewrite H. by rewrite app_nil_r.
Qed.

Lemma manifest_writes_trace w w' :
  w_trace w' = w_trace w -> manifest_writes w' = manifest_writes w.
Proof. unfold manifest_writes. by intros ->. Qed.

Lemma open_file_not_manifest name mode :
  valid_component name = true -> String.eqb name pymode_deps = false ->
  preserves (keeps manifest_writes) (open_file name mode).
Proof.
  intros Hv Hn w. unfold open_file, keeps.
  repeat case_match; simpl; try done;
    (rewrite (manifest_writes_log _ (set_fs _ w)); [done|]);
    simpl; by rewrite (resolve_child _ _ Hv), last_snoc.
Qed.

Ltac keeps_manifest_prim :=
  first
    [ apply open_file_not_manifest; reflexivity
    | let w := fresh "w" in
      intros w; prim_unfold; unfold keeps; repeat case_match; wsimpl;
      try done;
      solve [ apply manifest_writes_trace; wsimpl;
              rewrite ?stream_write_trace; done
            | eapply manifest_writes_snoc; [wsimpl; reflexivity | done] ] ].


#[local] Instance dirs_kept_preorder : PreOrder dirs_kept.
Proof.
  split; unfold dirs_kept; [by intros ?|]. intros x y z H1 H2 p Hp. auto.
Qed.

Lemma is_dir_insert_other fs q n p :
  is_dir fs q = false -> is_dir fs p = true -> is_dir (<[q := n]> fs) p = true.
Proof.
  intros Hq Hp. unfold is_dir in *. destruct p as [|c p]; [done|].
  rewrite lookup_insert_ne; [done|]. intros ->. congruence.
Qed.

Lemma is_dir_delete_file fs q p :
  is_file fs q = true -> is_dir fs p = true -> is_dir (delete q fs) p = true.
Proof.
  intros Hq Hp. unfold is_dir, is_file in *. destruct p as [|c p]; [done|].
  rewrite lookup_delete_ne; [done|]. intros ->.
  destruct (fs !! (c :: p)) as [[|?]|]; congruence.
Qed.

Lemma mkdirs_from_dirs_kept p todo : forall fs base r fs',
  mkdirs_from p fs base todo = (r, fs') ->
  forall d, is_dir fs d = true -> is_dir fs' d = true.
Proof.
  induction todo as [|c rest IH]; simpl; intros fs base r fs' H d Hd.
  - by inversion H; subst.
  - destruct (fs !! (base ++ [c])) as [[|x]|] eqn:E.
    + eauto.
    + by inversion H; subst.
    + eapply IH; [done|]. apply is_dir_insert_other; [|done].
      destruct (base ++ [c]) as [|a l] eqn:E'; [by destruct base|].
      unfold is_dir. by rewrite E.
Qed.

Lemma os_makedirs_dirs_kept p : preserves dirs_kept (os_makedirs p).
Proof.
  intros w. unfold os_makedirs. repeat case_match; simpl; try done.
  intros d Hd. by eapply mkdirs_from_dirs_kept.
Qed.

Lemma open_file_dirs_kept p mode : preserves dirs_kept (open_file p mode).
Proof.
  intros w. unfold open_file.
  destruct (String.eqb p ""); [done|].
  destruct (is_dir (w_fs w) (resolve (w_cwd w) p)) eqn:E; [done|]. simpl.
  destruct (trailing_slash p); [done|].
  destruct (negb _); [done|]. simpl. intros d Hd.
  by apply is_dir_insert_other.
Qed.

Lemma os_remove_dirs_kept p : preserves dirs_kept (os_remove p).
Proof.
  intros w. unfold os_remove. destruct (names_file w p) eqn:E.
  - simpl. intros d Hd. apply is_dir_delete_file; [|done].
    unfold names_file in E. by apply andb_prop in E as [_ ?].
  - by destruct (names_dir w p).
Qed.

Ltac dirs_kept_prim :=
  first
    [ apply os_makedirs_dirs_kept
    | apply open_file_dirs_kept
    | apply os_remove_dirs_kept
    | let w := fresh "w" in
      let p := fresh "p" in
      let Hp := fresh "Hp" in
      intros w; prim_unfold; unfold dirs_kept; repeat case_match; wsimpl;
      intros p Hp;
      rewrite ?stream_write_is_dir, ?is_dir_alter by apply append_to_dir;
      done ].

Section Frames.

Variable http_get : string -> Res string.
Variable run_cmd :
  list string -> path -> gmap string string -> gmap path Node ->
  Res nat * gmap path Node.

Lemma setup_logging_cwd : preserves (keeps w_cwd) setup_logging.
Proof. frame_with keeps_cwd_prim. Qed.

Lemma resolve_config_cwd prefix home :
  preserves (keeps w_cwd) (resolve_config prefix home).
Proof. frame_with keeps_cwd_prim. Qed.

Lemma setup_workdir_cwd : preserves (keeps w_cwd) setup_workdir.
Proof. frame_with keeps_cwd_prim. Qed.

Lemma print_message_cwd s : preserves (keeps w_cwd) (print_message s).
Proof. frame_with keeps_cwd_prim. Qed.

Lemma write_deps_file_cwd h i d :
  preserves (keeps w_cwd) (write_deps_file h i d).
Proof. frame_with keeps_cwd_prim. Qed.

Lemma setup_logging_manifest : preserves (keeps manifest_writes) setup_logging.
Proof. frame_with keeps_manifest_prim. Qed.

Lemma resolve_config_manifest prefix home :
  preserves (keeps manifest_writes) (resolve_config prefix home).
Proof. frame_with keeps_manifest_prim. Qed.

Lemma setup_workdir_manifest : preserves (keeps manifest_writes) setup_workdir.
Proof. frame_with keeps_manifest_prim. Qed.

Lemma install_begin_manifest d :
  preserves (keeps manifest_writes) (install_begin d).
Proof. frame_with keeps_manifest_prim. Qed.





Lemma print_message_dirs s : preserves dirs_kept (print_message s).
Proof. frame_with dirs_kept_prim. Qed.

Lemma write_deps_file_dirs h i d : preserves dirs_kept (write_deps_file h i d).
Proof. frame_with dirs_kept_prim. Qed.

Lemma resolve_config_dirs prefix home :
  preserves dirs_kept (resolve_config prefix home).
Proof. frame_with dirs_kept_prim. Qed.

End Frames.

(** ** Strings: lemmas *)

Lemma string_app_assoc (a b c : string) : (a +:+ b) +:+ c = a +:+ b +:+ c.
Proof. induction a; simpl; congruence. Qed.

Lemma trailing_slash_app h s :
  s <> "" -> trailing_slash (h +:+ s) = trailing_slash s.
Proof.
  intros Hs. induction h as [|c h IH]; [done|].
  change (String c h +:+ s) with (String c (h +:+ s)).
  cbn [trailing_slash]. rewrite IH.
  destruct (h +:+ s) eqn:E; [|done].
  destruct h; simpl in E; [done|discriminate].
Qed.

Lemma app_nonempty h s : s <> "" -> String.eqb (h +:+ s) "" = false.
Proof. intros Hs. destruct h; simpl; [by destruct s|done]. Qed.


Ltac inv_bind H :=
  let a := fresh "a" in
  let w1 := fresh "w" in
  let Hs := fresh "Hs" in
  apply bind_Ok_inv in H as (a & w1 & Hs & H).

Ltac inv_ret H := unfold ret in H; inversion H; subst; clear H.

(** ** C6: the configuration resolver's paths *)

Lemma resolve_config_Ok prefix home w cfg w' :
  resolve_config prefix home w = (Ok cfg, w') ->
  cfg = (install_root prefix home,
         install_root prefix home +:+ "include/",
         install_root prefix home +:+ "lib/").
Proof.
  intros H. unfold resolve_config in H.
  inv_bind H. do 6 inv_bind H. inv_ret H.
  destruct prefix as [p|]; simpl.
  - inv_bind Hs. by inv_ret Hs.
  - by inv_ret Hs.
Qed.

(** C6.  Whenever the resolver returns, its install root is
    [<home>/.pymode/] if no prefix was given and the prefix string itself,
    unchanged, if one was; the include and lib directories are the install
    root with ["include/"] and ["lib/"] appended as strings. *)
Theorem resolve_config_paths prefix home w install_dir include_dir lib_dir w' :
  resolve_config prefix home w = (Ok (install_dir, include_dir, lib_dir), w') ->
  install_dir = match prefix with
                | None => home +:+ "/.pymode/"
                | Some p => p
                end
  /\ include_dir = install_dir +:+ "include/"
  /\ lib_dir = install_dir +:+ "lib/".
Proof.
  intros H. apply resolve_config_Ok in H. by inversion H.
Qed.

(** ** C4: the manifest writer *)

Lemma dep_fname_ok home :
  String.eqb (home +:+ "/" +:+ pymode_deps) "" = false
  /\ trailing_slash (home +:+ "/" +:+ pymode_deps) = false.
Proof. split; [by apply app_nonempty|by rewrite trailing_slash_app]. Qed.

(** C4.  Where the manifest can be opened (its folder exists and its name is
    not taken by a directory), [write_deps_file] succeeds and leaves at that
    path exactly the three lines [PETSC_DIR=<install_dir>], [PETSC_ARCH=] and
    [SLEPC_DIR=<install_dir>], in this order, whatever the file held before;
    no other path changes. *)
Theorem write_deps_file_content home inc install_dir w :
  let q := resolve (w_cwd w) (home +:+ "/" +:+ pymode_deps) in
  is_dir (w_fs w) q = false ->
  is_dir (w_fs w) (parent q) = true ->
  exists w',
    write_deps_file home inc install_dir w = (Ok tt, w')
    /\ w_fs w' !! q =
       Some (File ("PETSC_DIR=" +:+ install_dir +:+ newline +:+
                   "PETSC_ARCH=" +:+ newline +:+
                   "SLEPC_DIR=" +:+ install_dir +:+ newline))
    /\ (forall p, p <> q -> w_fs w' !! p = w_fs w !! p).
Proof.
  intros q Hq Hp. destruct (dep_fname_ok home) as [Hne Hts].
  unfold write_deps_file, bind, open_file.
  rewrite Hne, Hts. fold q. rewrite Hq, Hp. simpl.
  eexists. split; [reflexivity|]. wsimpl. split.
  - rewrite !lookup_alter_eq, lookup_insert_eq.
    assert (Hk : match w_fs w !! q with
                 | Some (File _) => "" | _ => "" end = "").
    { by destruct (w_fs w !! q) as [[|?]|]. }
    rewrite Hk. simpl. by rewrite !string_app_assoc.
  - intros p Hne'. by rewrite !lookup_alter_ne, lookup_insert_ne.
Qed.

(** The specification's example, [install_dir = /x/y/], over a manifest that
    already holds keys. *)
Lemma write_deps_file_content_witness :
  let w := set_fs (<[ ["home"; "u"; ".pymode_deps"] :=
                       File "PETSC_DIR=/old/
PETSC_ARCH=linux
SLEPC_DIR=/old/
" ]> Sample.fs0) Sample.w0 in
  exists w',
    write_deps_file Sample.home "/x/y/include/" "/x/y/" w = (Ok tt, w')
    /\ w_fs w' !! ["home"; "u"; ".pymode_deps"] =
       Some (File "PETSC_DIR=/x/y/
PETSC_ARCH=
SLEPC_DIR=/x/y/
").
Proof.
  intros w.
  destruct (write_deps_file_content Sample.home "/x/y/include/" "/x/y/" w)
    as (w' & H1 & H2 & _); [by vm_compute..|].
  exists w'. split; [exact H1|exact H2].
Defined.

(** ** C9: the logger *)

(** [Logger.write]: [self.terminal.write(message)], then
    [self.log.write(message)]; it is what [sys.stdout.write] does once the
    logger is installed. *)
Lemma Logger_write_eq t l message w :
  Logger_write (Logger t l) message w
  = (modify (stream_write t message) ;; file_write l message) w.
Proof. reflexivity. Qed.

Lemma stdout_write_logger t l message w :
  w_stdout w = Logger t l ->
  stdout_write message w = Logger_write (Logger t l) message w.
Proof. unfold stdout_write, Logger_write, modify. by intros ->. Qed.

Lemma write_all_logger q msgs : forall w c,
  w_stdout w = Logger Console q ->
  w_fs w !! q = Some (File c) ->
  exists w2,
    write_all msgs w = (Ok tt, w2)
    /\ w_fs w2 !! q = Some (File (c +:+ join_all msgs))
    /\ w_console w2 = w_console w +:+ join_all msgs.
Proof.
  induction msgs as [|m rest IH]; intros w c Hs Hq.
  - exists w. by rewrite !string_app_nil_r.
  - cbn [write_all]. unfold bind at 1. unfold stdout_write, modify.
    rewrite Hs. cbn [stream_write]. wsimpl.
    set (w1 := set_fs _ _).
    destruct (IH w1 (c +:+ m)) as (w2 & H1 & H2 & H3).
    + by subst w1.
    + subst w1. wsimpl. by rewrite lookup_alter_eq, Hq.
    + exists w2. split; [done|]. cbn [join_all].
      rewrite H2, H3. subst w1. wsimpl. by rewrite !string_app_assoc.
Qed.

Lemma Logger_init_Ok fname w lg w1 :
  Logger_init fname w = (Ok lg, w1) ->
  lg = Logger (w_stdout w) (resolve (w_cwd w) fname)
  /\ w_fs w1 !! resolve (w_cwd w) fname = Some (File "")
  /\ w_console w1 = w_console w.
Proof.
  unfold Logger_init. intros H.
  apply bind_Ok_inv in H as (t & wa & Ht & H). inv_ret Ht.
  apply bind_Ok_inv in H as (old & wb & Hold & H). inv_ret Hold.
  apply bind_Ok_inv in H as ([] & wc & Hrm & H).
  apply bind_Ok_inv in H as (q & wd & Hop & H). inv_ret H.
  rename wb into w.
  assert (Hfs : w_cwd wc = w_cwd w /\ w_console wc = w_console w /\
                is_file (w_fs wc) (resolve (w_cwd w) fname) = false
                \/ String.eqb fname "" || trailing_slash fname = true).
  { destruct (names_file w fname) eqn:E; cbn [when] in Hrm.
    - left. unfold os_remove in Hrm. rewrite E in Hrm.
      inversion Hrm; subst. wsimpl. repeat split.
      unfold is_file. by rewrite lookup_delete_eq.
    - inv_ret Hrm. unfold names_file in E.
      destruct (String.eqb fname ""); [by right|].
      destruct (trailing_slash fname); [right; apply orb_true_r|].
      simpl in E. by left. }
  unfold open_file in Hop.
  destruct (String.eqb fname ""); [done|].
  destruct (is_dir _ _); [done|].
  destruct (trailing_slash fname); [done|]. simpl in *.
  destruct (negb _); [done|].
  destruct Hfs as [(Hc & Hco & Hf)|]; [|done].
  inversion Hop; subst. wsimpl. rewrite Hc, lookup_insert_eq.
  repeat split; [|done]. unfold is_file in Hf. clear Hop.
  destruct (w_fs wc !! resolve (w_cwd w) fname) as [[|?]|]; done.
Qed.

(** C9.  Once the logger is installed over the console, any sequence of
    writes to [sys.stdout] succeeds, the log file then holds exactly the
    concatenation of the messages, and the console has received the same
    concatenation, in the same order. *)
Theorem logger_mirrors_writes fname msgs w lg w1 :
  w_stdout w = Console ->
  Logger_init fname w = (Ok lg, w1) ->
  exists w2,
    write_all msgs (set_stdout lg w1) = (Ok tt, w2)
    /\ lg = Logger Console (resolve (w_cwd w) fname)
    /\ w_fs w2 !! resolve (w_cwd w) fname = Some (File (join_all msgs))
    /\ w_console w2 = w_console w +:+ join_all msgs.
Proof.
  intros Hc H. apply Logger_init_Ok in H as (-> & Hf & Hco).
  rewrite Hc.
  destruct (write_all_logger (resolve (w_cwd w) fname) msgs
              (set_stdout (Logger Console (resolve (w_cwd w) fname)) w1) "")
    as (w2 & H1 & H2 & H3); [done..|].
  exists w2. split; [done|]. split; [done|]. split; [done|].
  rewrite H3. wsimpl. by rewrite Hco.
Qed.

Lemma logger_mirrors_writes_witness :
  exists w2,
    write_all ["a"; "bc"; ""; "d"]
      (set_stdout (Logger Console (Sample.start ++ ["install.log"]))
         (Logger_init "install.log" Sample.w0).2) = (Ok tt, w2)
    /\ w_fs w2 !! (Sample.start ++ ["install.log"]) = Some (File "abcd")
    /\ w_console w2 = "abcd".
Proof.
  destruct (logger_mirrors_writes "install.log" ["a"; "bc"; ""; "d"]
              Sample.w0 (Logger Console (Sample.start ++ ["install.log"]))
              (Logger_init "install.log" Sample.w0).2)
    as (w2 & H1 & _ & H2 & H3); [reflexivity|by vm_compute|].
  exists w2. repeat split; [exact H1|exact H2|exact H3].
Defined.

(** ** Successful steps *)

Lemma print_eq s w :
  print s w =
  (Ok tt, stream_write (w_stdout w) newline (stream_write (w_stdout w) s w)).
Proof.
  unfold print, bind, stdout_write, modify. by rewrite stream_write_stdout.
Qed.

Lemma print_console s w :
  w_console (print s w).2 = w_console w +:+ s +:+ newline.
Proof.
  rewrite print_eq. simpl.
  by rewrite !stream_write_console, string_app_assoc.
Qed.

Lemma os_chdir_Ok p w a w' :
  os_chdir p w = (Ok a, w') ->
  w_cwd w' = resolve (w_cwd w) p
  /\ w_fs w' = w_fs w
  /\ is_dir (w_fs w) (resolve (w_cwd w) p) = true.
Proof.
  unfold os_chdir. destruct (names_dir w p) eqn:E.
  - intros H. inversion H; subst. wsimpl. repeat split.
    unfold names_dir in E. by apply andb_prop in E as [_ ?].
  - by destruct (is_file _ _).
Qed.

Lemma is_dir_filter_out fs q d :
  is_prefix q d = false ->
  is_dir (filter (fun kv => is_prefix q kv.1 = false) fs) d = is_dir fs d.
Proof.
  intros H. unfold is_dir. destruct d as [|c d]; [done|].
  destruct (fs !! (c :: d)) as [n|] eqn:E.
  - by rewrite (map_lookup_filter_Some_2 _ _ _ n).
  - by rewrite map_lookup_filter_None_2; [|left].
Qed.

Lemma is_dir_filter_in fs q d :
  d <> [] -> is_prefix q d = true ->
  is_dir (filter (fun kv => is_prefix q kv.1 = false) fs) d = false.
Proof.
  intros Hd H. unfold is_dir. destruct d as [|c d]; [done|].
  rewrite map_lookup_filter_None_2; [done|]. right. intros n _. simpl.
  by rewrite H.
Qed.

Lemma is_prefix_refl p : is_prefix p p = true.
Proof.
  induction p as [|a p IH]; simpl; [done|]. by rewrite String.eqb_refl.
Qed.

Lemma shutil_rmtree_Ok p w a w' :
  shutil_rmtree p w = (Ok a, w') ->
  w_cwd w' = w_cwd w
  /\ w_fs w' =
     filter (fun kv => is_prefix (resolve (w_cwd w) p) kv.1 = false) (w_fs w).
Proof.
  unfold shutil_rmtree. destruct (names_dir w p).
  - intros H. by inversion H; subst.
  - by destruct (is_file _ _).
Qed.

(** One step of a run that succeeded, tracking the working directory. *)
Ltac cwd_step H :=
  let a := fresh "a" in
  let w1 := fresh "w" in
  let Hs := fresh "Hs" in
  apply bind_Ok_inv in H as (a & w1 & Hs & H);
  first
    [ apply os_chdir_Ok in Hs as (Hs & ? & ?)
    | apply (preserves_Ok (keeps w_cwd)) in Hs;
      [| solve [frame_with keeps_cwd_prim] ];
      unfold keeps in Hs ].

Ltac cwd_chain :=
  repeat match goal with
         | H : w_cwd ?x = _ |- context [w_cwd ?x] => rewrite H; clear H
         end.

Section Runs.

Variable http_get : string -> Res string.
Variable run_cmd :
  list string -> path -> gmap string string -> gmap path Node ->
  Res nat * gmap path Node.

Lemma install_petsc_Ok d w w' :
  install_petsc http_get run_cmd d w = (Ok tt, w') -> w_cwd w' = w_cwd w.
Proof.
  intros H. unfold install_petsc in H.
  do 18 cwd_step H.
  apply shutil_rmtree_Ok in H as [H _].
  cwd_chain. rewrite (resolve_child _ petsc_folder) by done.
  apply resolve_up.
Qed.

Lemma install_slepc_Ok d w w' :
  install_slepc http_get run_cmd d w = (Ok tt, w') ->
  w_cwd w' = w_cwd w /\ is_dir (w_fs w') (w_cwd w) = true.
Proof.
  intros H. unfold install_slepc in H.
  do 13 cwd_step H.
  apply bind_Ok_inv in H as (? & wu & Hup & H).
  apply bind_Ok_inv in H as (? & wr & Hrm & H).
  apply os_chdir_Ok in Hup as (Hcu & Hfu & Hdu).
  apply shutil_rmtree_Ok in Hrm as (Hcr & Hfr).
  assert (Hd : dirs_kept wr w').
  { eapply (preserves_Ok dirs_kept); [|exact H]. apply os_remove_dirs_kept. }
  apply (preserves_Ok (keeps w_cwd)) in H; [|solve [frame_with keeps_cwd_prim]].
  unfold keeps in H.
  assert (Hback : w_cwd wu = w_cwd w).
  { cwd_chain. rewrite (resolve_child _ slepc_folder) by done.
    apply resolve_up. }
  split; [congruence|].
  apply Hd. rewrite Hfr, is_dir_filter_out.
  - by rewrite Hfu, <- Hback, Hcu.
  - rewrite Hback, (resolve_child _ slepc_folder) by done.
    apply is_prefix_app_self.
Qed.

End Runs.

(** ** The orchestration sequence *)

Lemma prelude_Ok prefix home w0 cfg cur w1 :
  prelude prefix home w0 = (Ok (cfg, cur), w1) ->
  w_cwd w1 = w_cwd w0 ++ ["build"]
  /\ cur = path_to_string (w_cwd w0)
  /\ is_dir (w_fs w1) (w_cwd w0 ++ ["build"]) = true
  /\ cfg = (install_root prefix home,
            install_root prefix home +:+ "include/",
            install_root prefix home +:+ "lib/").
Proof.
  intros H. unfold prelude in H.
  apply bind_Ok_inv in H as (? & wa & Hlog & H).
  apply bind_Ok_inv in H as (cfg' & wb & Hcfg & H).
  apply bind_Ok_inv in H as (cur' & wc & Hwd & H).
  apply bind_Ok_inv in H as (? & wd & Hbeg & H). inv_ret H.
  apply (preserves_Ok _ _ _ _ _ setup_logging_cwd) in Hlog.
  pose proof (preserves_Ok _ _ _ _ _ (resolve_config_cwd _ _) Hcfg) as Hb.
  apply resolve_config_Ok in Hcfg.
  pose proof (preserves_Ok _ _ _ _ _ setup_workdir_cwd Hwd) as Hc.
  unfold keeps in *.
  unfold setup_workdir in Hwd.
  apply bind_Ok_inv in Hwd as (c & wb' & Hget & Hwd). inv_ret Hget.
  do 2 inv_bind Hwd. inv_ret Hwd.
  apply os_chdir_Ok in Hbeg as (Hcd & Hfd & Hdd).
  rewrite resolve_build in Hcd, Hdd.
  repeat split; congruence.
Qed.

Lemma install_deps_prelude http_get run_cmd prefix home w :
  install_deps http_get run_cmd prefix home w =
  match prelude prefix home w with
  | (Ok (install_dir, include_dir, lib_dir, current_dir), w1) =>
      (try_except (try_body http_get run_cmd home include_dir install_dir)
                  (handler current_dir) ;;
       print_message final_message) w1
  | (Raise e, w1) => (Raise e, w1)
  end.
Proof.
  unfold install_deps, prelude, bind.
  destruct (setup_logging w) as [[?|?] ?]; [|done].
  destruct (resolve_config _ _ _) as [[[[??]?]|?] ?]; [|done].
  destruct (setup_workdir _) as [[?|?] ?]; [|done].
  by destruct (install_begin _ _) as [[?|?] ?].
Qed.

Lemma names_file_build w : names_file w build_dir = false.
Proof. done. Qed.

(** The handler, run where the start directory still exists. *)
Lemma handler_spec e w start :
  wf_path start = true ->
  is_dir (w_fs w) start = true ->
  exists w',
    handler (path_to_string start) e w = (Ok tt, w')
    /\ w_cwd w' = start
    /\ is_dir (w_fs w') (start ++ ["build"]) = false
    /\ w_console w' = w_console w +:+ exn_str e +:+ newline.
Proof.
  intros Hwf Hdir. unfold handler.
  rewrite (bind_Ok _ _ _ _ _ (print_eq _ _)).
  set (w1 := stream_write _ _ _).
  assert (Hc1 : w_console w1 = w_console w +:+ exn_str e +:+ newline).
  { subst w1. by rewrite !stream_write_console, string_app_assoc. }
  assert (Hd1 : forall p, is_dir (w_fs w1) p = is_dir (w_fs w) p).
  { intros p. subst w1. by rewrite !stream_write_is_dir. }
  clearbody w1. unfold install_end.
  assert (Hcd : os_chdir (path_to_string start) w1 =
                (Ok tt, log_event (EvChdir start) (set_cwd start w1))).
  { unfold os_chdir, names_dir.
    rewrite path_to_string_nonempty, (resolve_path_to_string _ _ Hwf).
    by rewrite Hd1, Hdir. }
  rewrite (bind_Ok _ _ _ _ _ Hcd).
  set (w2 := log_event _ _).
  unfold os_path_exists at 1, gets, bind at 1.
  rewrite names_file_build, orb_false_r.
  destruct (names_dir w2 build_dir) eqn:E; cbn [when].
  - unfold shutil_rmtree. rewrite E. eexists. split; [done|].
    subst w2. wsimpl. repeat split; [|done].
    rewrite resolve_build. apply is_dir_filter_in; [by destruct start|].
    apply is_prefix_refl.
  - exists w2. split; [done|]. subst w2. wsimpl. repeat split; [|done].
    unfold names_dir in E. wsimpl. by rewrite resolve_build in E.
Qed.

(** The handler only returns where the start directory still exists. *)
Lemma handler_Ok_start e w start w' :
  wf_path start = true ->
  handler (path_to_string start) e w = (Ok tt, w') ->
  is_dir (w_fs w) start = true.
Proof.
  intros Hwf H. unfold handler in H.
  rewrite (bind_Ok _ _ _ _ _ (print_eq _ _)) in H.
  unfold install_end in H. apply bind_Ok_inv in H as (? & w2 & Hcd & _).
  apply os_chdir_Ok in Hcd as (_ & _ & Hd).
  by rewrite (resolve_path_to_string _ _ Hwf), !stream_write_is_dir in Hd.
Qed.

Section Orchestration.

Variable http_get : string -> Res string.
Variable run_cmd :
  list string -> path -> gmap string string -> gmap path Node ->
  Res nat * gmap path Node.

Lemma try_body_Ok home inc d w w' :
  try_body http_get run_cmd home inc d w = (Ok tt, w') ->
  w_cwd w' = w_cwd w /\ is_dir (w_fs w') (w_cwd w) = true.
Proof.
  intros H. unfold try_body in H.
  apply bind_Ok_inv in H as ([] & wa & Hp & H).
  apply bind_Ok_inv in H as ([] & wb & Hs & H).
  apply install_petsc_Ok in Hp. apply install_slepc_Ok in Hs as [Hs Hd].
  pose proof (preserves_Ok _ _ _ _ _ (write_deps_file_cwd _ _ _) H) as Hc.
  pose proof (preserves_Ok _ _ _ _ _ (write_deps_file_dirs _ _ _) H) as Hk.
  unfold keeps in Hc. split; [congruence|].
  apply Hk. congruence.
Qed.

Lemma install_deps_success prefix home w0 d inc lib cur w1 w2 :
  prelude prefix home w0 = (Ok (d, inc, lib, cur), w1) ->
  try_body http_get run_cmd home inc d w1 = (Ok tt, w2) ->
  install_deps http_get run_cmd prefix home w0 =
  print_message final_message w2.
Proof.
  intros Hp Hb. rewrite install_deps_prelude, Hp.
  unfold bind at 1, try_except. by rewrite Hb.
Qed.

Lemma install_deps_handled prefix home w0 d inc lib cur w1 e w2 w3 :
  prelude prefix home w0 = (Ok (d, inc, lib, cur), w1) ->
  try_body http_get run_cmd home inc d w1 = (Raise e, w2) ->
  handler cur e w2 = (Ok tt, w3) ->
  install_deps http_get run_cmd prefix home w0 =
  print_message final_message w3.
Proof.
  intros Hp Hb Hh. rewrite install_deps_prelude, Hp.
  unfold bind at 1, try_except. by rewrite Hb, Hh.
Qed.

(** An exception raised by the handler itself is not caught by anything. *)
Lemma install_deps_handler_raises prefix home w0 d inc lib cur w1 e w2 e' w3 :
  prelude prefix home w0 = (Ok (d, inc, lib, cur), w1) ->
  try_body http_get run_cmd home inc d w1 = (Raise e, w2) ->
  handler cur e w2 = (Raise e', w3) ->
  install_deps http_get run_cmd prefix home w0 = (Raise e', w3).
Proof.
  intros Hp Hb Hh. rewrite install_deps_prelude, Hp.
  unfold bind at 1, try_except. by rewrite Hb, Hh.
Qed.

Lemma print_message_eq s w :
  print_message s w = (Ok tt, (print_message s w).2).
Proof. unfold print_message. by rewrite print_eq. Qed.

(** C3, as the code has it.  On a run that reaches the [try], the completion message
    is the last thing printed when the body of the [try] succeeds, and when
    it raised and the handler returned.  When the handler itself raises
    ([install_end]'s [os.chdir] fails), the exception leaves [install_deps]
    in the state the handler left, so the message is not printed. *)
Theorem final_message_unconditional prefix home w0 d inc lib cur w1 :
  prelude prefix home w0 = (Ok (d, inc, lib, cur), w1) ->
  (forall w2,
     try_body http_get run_cmd home inc d w1 = (Ok tt, w2) ->
     exists w3,
       install_deps http_get run_cmd prefix home w0 = (Ok tt, w3)
       /\ w_console w3 =
          w_console w2 +:+ colored final_message +:+ newline)
  /\ (forall e w2 w2',
        try_body http_get run_cmd home inc d w1 = (Raise e, w2) ->
        handler cur e w2 = (Ok tt, w2') ->
        exists w3,
          install_deps http_get run_cmd prefix home w0 = (Ok tt, w3)
          /\ w_console w3 =
             w_console w2' +:+ colored final_message +:+ newline)
  /\ (forall e w2 e' w2',
        try_body http_get run_cmd home inc d w1 = (Raise e, w2) ->
        handler cur e w2 = (Raise e', w2') ->
        install_deps http_get run_cmd prefix home w0 = (Raise e', w2')).
Proof.
  intros Hp. split; [|split].
  - intros w2 Hb. eexists. split.
    + rewrite (install_deps_success _ _ _ _ _ _ _ _ _ Hp Hb).
      apply print_message_eq.
    + apply print_console.
  - intros e w2 w2' Hb Hh. eexists. split.
    + rewrite (install_deps_handled _ _ _ _ _ _ _ _ _ _ _ Hp Hb Hh).
      apply print_message_eq.
    + apply print_console.
  - intros e w2 e' w2' Hb Hh.
    exact (install_deps_handler_raises _ _ _ _ _ _ _ _ _ _ _ _ Hp Hb Hh).
Qed.

(** C10.  On a run whose [try] body succeeds, the working directory when the
    final message prints is the build directory entered by [install_begin],
    which is not the start directory; a run whose handler ran ends in the
    start directory instead. *)
Theorem success_stays_in_build_dir prefix home w0 d inc lib cur w1 :
  prelude prefix home w0 = (Ok (d, inc, lib, cur), w1) ->
  w_cwd w1 = w_cwd w0 ++ ["build"]
  /\ (forall w2,
        try_body http_get run_cmd home inc d w1 = (Ok tt, w2) ->
        install_deps http_get run_cmd prefix home w0 =
          print_message final_message w2
        /\ w_cwd w2 = w_cwd w0 ++ ["build"]
        /\ w_cwd (install_deps http_get run_cmd prefix home w0).2 =
           w_cwd w0 ++ ["build"]
        /\ w_cwd w2 <> w_cwd w0)
  /\ (forall e w2 w3,
        wf_path (w_cwd w0) = true ->
        try_body http_get run_cmd home inc d w1 = (Raise e, w2) ->
        handler cur e w2 = (Ok tt, w3) ->
        w_cwd (install_deps http_get run_cmd prefix home w0).2 = w_cwd w0).
Proof.
  intros Hp. destruct (prelude_Ok _ _ _ _ _ _ Hp) as (Hc & Hcur & Hd & _).
  split; [done|]. split.
  - intros w2 Hb. destruct (try_body_Ok _ _ _ _ _ Hb) as [Hc2 _].
    pose proof (install_deps_success _ _ _ _ _ _ _ _ _ Hp Hb) as Hrun.
    split; [done|]. rewrite Hrun, (print_message_cwd _ w2), Hc2, Hc.
    repeat split. apply app_singleton_neq.
  - intros e w2 w3 Hwf Hb Hh.
    rewrite (install_deps_handled _ _ _ _ _ _ _ _ _ _ _ Hp Hb Hh).
    rewrite (print_message_cwd _ w3). subst cur.
    pose proof (handler_Ok_start _ _ _ _ Hwf Hh) as Hstart.
    destruct (handler_spec e w2 _ Hwf Hstart) as (w3' & Hh' & Hc3 & _).
    congruence.
Qed.

(** C2, as the code has it.  On a fully successful run the orchestrator does
    no final cleanup: after the manifest is written only the final message is
    printed (no further action is traced), and the build directory still
    exists when the run ends. *)
Theorem success_keeps_build_dir prefix home w0 d inc lib cur w1 w2 :
  prelude prefix home w0 = (Ok (d, inc, lib, cur), w1) ->
  try_body http_get run_cmd home inc d w1 = (Ok tt, w2) ->
  exists w3,
    install_deps http_get run_cmd prefix home w0 = (Ok tt, w3)
    /\ w_trace w3 = w_trace w2
    /\ is_dir (w_fs w2) (w_cwd w0 ++ ["build"]) = true
    /\ is_dir (w_fs w3) (w_cwd w0 ++ ["build"]) = true.
Proof.
  intros Hp Hb. destruct (prelude_Ok _ _ _ _ _ _ Hp) as (Hc & _ & _ & _).
  destruct (try_body_Ok _ _ _ _ _ Hb) as [_ Hd]. rewrite Hc in Hd.
  eexists. split.
  - rewrite (install_deps_success _ _ _ _ _ _ _ _ _ Hp Hb).
    apply print_message_eq.
  - split; [|split; [done|]].
    + unfold print_message. rewrite print_eq. simpl.
      by rewrite !stream_write_trace.
    + by apply (print_message_dirs final_message w2).
Qed.

(** C1, as the code has it.  A failure before the [try] (logger set-up,
    configuration resolution, creating or entering the build directory)
    propagates out of [install_deps] uncaught, from the state at the raise.
    A failure raised by an installer or by the manifest writer is caught by
    the handler, once: where the start directory still exists, the handler
    prints the error, returns to the start directory and removes the build
    directory, and the run then ends normally. *)
Theorem failures_in_try_are_handled prefix home w0 :
  (forall e w1,
     prelude prefix home w0 = (Raise e, w1) ->
     install_deps http_get run_cmd prefix home w0 = (Raise e, w1))
  /\ (forall d inc lib cur w1 e w2,
        prelude prefix home w0 = (Ok (d, inc, lib, cur), w1) ->
        try_body http_get run_cmd home inc d w1 = (Raise e, w2) ->
        wf_path (w_cwd w0) = true ->
        is_dir (w_fs w2) (w_cwd w0) = true ->
        exists w3 w4,
          handler cur e w2 = (Ok tt, w3)
          /\ install_deps http_get run_cmd prefix home w0 = (Ok tt, w4)
          /\ w4 = (print_message final_message w3).2
          /\ w_console w3 = w_console w2 +:+ exn_str e +:+ newline
          /\ w_cwd w3 = w_cwd w0
          /\ w_cwd w4 = w_cwd w0
          /\ is_dir (w_fs w3) (w_cwd w0 ++ ["build"]) = false
          /\ is_dir (w_fs w4) (w_cwd w0 ++ ["build"]) = false).
Proof.
  split.
  - intros e w1 Hp. by rewrite install_deps_prelude, Hp.
  - intros d inc lib cur w1 e w2 Hp Hb Hwf Hstart.
    destruct (prelude_Ok _ _ _ _ _ _ Hp) as (_ & -> & _ & _).
    destruct (handler_spec e w2 _ Hwf Hstart) as (w3 & Hh & Hc3 & Hd3 & Ho3).
    exists w3, (print_message final_message w3).2.
    split; [done|]. split.
    { rewrite (install_deps_handled _ _ _ _ _ _ _ _ _ _ _ Hp Hb Hh).
      apply print_message_eq. }
    split; [done|]. split; [done|]. split; [done|]. split.
    { by rewrite (print_message_cwd _ w3). }
    split; [done|].
    unfold print_message. rewrite print_eq. simpl.
    by rewrite !stream_write_is_dir.
Qed.

End Orchestration.

(** ** C7: environment sanitation comes first *)

#[local] Instance quiet_preorder keys : PreOrder (quiet keys).
Proof.
  split.
  - intros w. exists []. by rewrite app_nil_r.
  - intros x y z (e1 & H1 & F1) (e2 & H2 & F2). exists (e1 ++ e2).
    split; [by rewrite H2, H1, app_assoc|by apply Forall_app].
Qed.

#[local] Instance clean_preorder keys : PreOrder (clean keys).
Proof.
  split.
  - intros w Ha. split; [done|reflexivity].
  - intros x y z H1 H2 Ha. destruct (H1 Ha) as [Hy Q1].
    destruct (H2 Hy) as [Hz Q2]. split; [done|by etrans].
Qed.

Lemma weak_bind keys {A B} (m : M A) (f : A -> M B) :
  preserves (clean keys) m -> (forall a, preserves (weak keys) (f a)) ->
  preserves (weak keys) (bind m f).
Proof.
  intros Hm Hf w Ha. unfold bind. specialize (Hm w).
  destruct (m w) as [[a|e] w1]; simpl in *.
  - destruct (Hm Ha) as [Ha1 Q1]. etrans; [exact Q1|]. by apply Hf.
  - by apply Hm.
Qed.

Lemma weak_of_quiet keys {A} (m : M A) :
  preserves (quiet keys) m -> preserves (weak keys) m.
Proof. intros H w _. apply H. Qed.

Lemma weak_of_clean keys {A} (m : M A) :
  preserves (clean keys) m -> preserves (weak keys) m.
Proof. intros H w Ha. by apply H. Qed.

Lemma quiet_same keys w w' : w_trace w' = w_trace w -> quiet keys w w'.
Proof. intros H. exists []. by rewrite app_nil_r. Qed.

Lemma quiet_one keys ev w w' :
  w_trace w' = w_trace w ++ [ev] -> unset_in keys ev -> quiet keys w w'.
Proof. intros H Hev. exists [ev]. split; [done|by constructor]. Qed.

Lemma absent_same keys w w' :
  w_env w' = w_env w -> absent keys w -> absent keys w'.
Proof. unfold absent. by intros ->. Qed.

Lemma absent_delete keys k w w' :
  w_env w' = delete k (w_env w) -> absent keys w -> absent keys w'.
Proof.
  unfold absent. intros -> H. eapply Forall_impl; [exact H|].
  intros k' Hk. simpl in Hk. rewrite lookup_delete. by case_decide.
Qed.

Ltac quiet_prim :=
  let w := fresh "w" in
  intros w; prim_unfold; repeat case_match; wsimpl;
  first
    [ apply quiet_same; wsimpl; rewrite ?stream_write_trace; done
    | eapply quiet_one; [wsimpl; reflexivity | exact I] ].

Ltac clean_prim :=
  let w := fresh "w" in
  let Ha := fresh "Ha" in
  intros w; prim_unfold; repeat case_match; wsimpl; intros Ha;
  (split;
   [ first [ eapply absent_same; [|exact Ha]; wsimpl;
             rewrite ?stream_write_env; done
           | eapply absent_delete; [|exact Ha]; wsimpl; done ]
   | first [ apply quiet_same; wsimpl; rewrite ?stream_write_trace; done
           | eapply quiet_one;
             [wsimpl; reflexivity | first [exact I | exact Ha]] ] ]).

Lemma set_env_id w : set_env (w_env w) w = w.
Proof. by destruct w. Qed.

(** [if k in os.environ: del os.environ[k]] removes [k], present or not. *)
Lemma sanitize_bind k {B} (rest : M B) w :
  (has <- environ_contains k ;; when has (environ_del k) ;; rest) w
  = rest (set_env (delete k (w_env w)) w).
Proof.
  unfold bind at 1, environ_contains, gets.
  destruct (w_env w !! k) as [v|] eqn:E.
  - rewrite bool_decide_eq_true_2 by eauto. cbn [when].
    unfold bind, environ_del. by rewrite E.
  - rewrite bool_decide_eq_false_2 by (by intros [? ?]). cbn [when].
    unfold bind, ret. by rewrite delete_id, set_env_id.
Qed.

Lemma print_message_env s w : w_env (print_message s w).2 = w_env w.
Proof.
  unfold print_message. rewrite print_eq. simpl. by rewrite !stream_write_env.
Qed.

Lemma print_message_trace s w : w_trace (print_message s w).2 = w_trace w.
Proof.
  unfold print_message. rewrite print_eq. simpl. by rewrite !stream_write_trace.
Qed.

Section Sanitation.

Variable http_get : string -> Res string.
Variable run_cmd :
  list string -> path -> gmap string string -> gmap path Node ->
  Res nat * gmap path Node.

(** What a download that starts without [keys] in the environment, and the
    steps [k] after it, add to the trace. *)
Lemma download_then keys url {B} (k : string -> M B) w :
  absent keys w ->
  (forall r, preserves (weak keys) (k r)) ->
  exists rest,
    w_trace ((r <- requests_get http_get url ;; k r) w).2
    = w_trace w ++ EvGet url (w_env w) :: rest
    /\ Forall (unset_in keys) rest.
Proof.
  intros Ha Hk. unfold bind, requests_get.
  destruct (http_get url) as [r|e].
  - destruct (Hk r (log_event (EvGet url (w_env w)) w)) as (evs & Ht & Hf).
    { exact Ha. }
    exists evs. split; [|done]. rewrite Ht. wsimpl.
    by rewrite <- app_assoc.
  - exists []. by split.
Qed.

(** C7.  In both installers the stale variables are gone before anything
    external happens.  [install_petsc] always reaches its download, which is
    its first external action and runs in the caller's environment without
    [PETSC_DIR] and [PETSC_ARCH]; neither variable is set when any later
    download or sub-process of that call (the configure step among them)
    runs.  The same holds for [install_slepc] and [SLEPC_DIR]. *)
Theorem sanitation_precedes_download d w :
  (let env1 := delete "PETSC_ARCH" (delete "PETSC_DIR" (w_env w)) in
   exists rest,
     w_trace (install_petsc http_get run_cmd d w).2
     = w_trace w ++ EvGet petsc_url env1 :: rest
     /\ env1 !! "PETSC_DIR" = None /\ env1 !! "PETSC_ARCH" = None
     /\ Forall (unset_in ["PETSC_DIR"; "PETSC_ARCH"]) rest)
  /\ (let env1 := delete "SLEPC_DIR" (w_env w) in
      exists rest,
        w_trace (install_slepc http_get run_cmd d w).2
        = w_trace w ++ EvGet slepc_url env1 :: rest
        /\ env1 !! "SLEPC_DIR" = None
        /\ Forall (unset_in ["SLEPC_DIR"]) rest).
Proof.
  split.
  - intros env1.
    assert (H1 : env1 !! "PETSC_DIR" = None).
    { subst env1. by rewrite lookup_delete_ne, lookup_delete_eq. }
    assert (H2 : env1 !! "PETSC_ARCH" = None).
    { subst env1. by rewrite lookup_delete_eq. }
    unfold install_petsc. rewrite !sanitize_bind. wsimpl. fold env1.
    set (wa := set_env env1 _).
    rewrite (bind_Ok _ _ _ _ _ (print_message_eq _ wa)).
    set (wb := (print_message _ wa).2).
    assert (w_env wb = env1 /\ w_trace wb = w_trace w) as [He Ht].
    { subst wb. by rewrite print_message_env, print_message_trace. }
    match goal with
    | |- context [bind (requests_get _ ?u) ?k wb] =>
        destruct (download_then ["PETSC_DIR"; "PETSC_ARCH"] u k wb)
          as (rest & Hr & Hf); [| |exists rest; rewrite Hr, He, Ht; done]
    end.
    + unfold absent. rewrite He. by repeat constructor.
    + intros r.
      repeat (apply weak_bind; [solve [frame_with clean_prim] | intros ?]).
      apply weak_of_quiet. frame_with quiet_prim.
  - intros env1.
    assert (H1 : env1 !! "SLEPC_DIR" = None).
    { subst env1. by rewrite lookup_delete_eq. }
    unfold install_slepc. rewrite !sanitize_bind. fold env1.
    set (wa := set_env env1 _).
    rewrite (bind_Ok _ _ _ _ _ (print_message_eq _ wa)).
    set (wb := (print_message _ wa).2).
    assert (w_env wb = env1 /\ w_trace wb = w_trace w) as [He Ht].
    { subst wb. by rewrite print_message_env, print_message_trace. }
    match goal with
    | |- context [bind (requests_get _ ?u) ?k wb] =>
        destruct (download_then ["SLEPC_DIR"] u k wb)
          as (rest & Hr & Hf); [| |exists rest; rewrite Hr, He, Ht; done]
    end.
    + unfold absent. rewrite He. by repeat constructor.
    + intros r. apply weak_of_clean. frame_with clean_prim.
Qed.

End Sanitation.

(** ** C5: the manifest is written once, after both installers *)

Lemma last_resolve_dep cwd home :
  last (resolve cwd (home +:+ "/" +:+ pymode_deps)) = Some pymode_deps.
Proof.
  unfold resolve.
  change (home +:+ "/" +:+ pymode_deps)
    with (home +:+ String slash pymode_deps).
  rewrite split_slash_app_slash.
  change (split_slash pymode_deps) with [pymode_deps].
  rewrite fold_left_app. cbn [fold_left].
  change (norm_step ?acc pymode_deps) with (pymode_deps :: acc).
  cbn [rev]. apply last_snoc.
Qed.



Section Manifest.

Variable http_get : string -> Res string.
Variable run_cmd :
  list string -> path -> gmap string string -> gmap path Node ->
  Res nat * gmap path Node.


End Manifest.

(** ** C8: directory creation is guarded *)

#[local] Instance nodes_kept_preorder : PreOrder nodes_kept.
Proof.
  split.
  - by intros w.
  - intros x y z [C1 H1] [C2 H2]. split; [congruence|].
    intros p. split; intros Hp; [apply H2, H1|apply H2, H1]; done.
Qed.

Lemma is_file_alter_append msg fs h p :
  is_file (alter (append_to msg) h fs) p = is_file fs p.
Proof.
  unfold is_file. rewrite lookup_alter. case_decide as Hd; [|done]. subst h.
  by destruct (fs !! p) as [[|?]|].
Qed.

Lemma stream_write_is_file s msg w p :
  is_file (w_fs (stream_write s msg w)) p = is_file (w_fs w) p.
Proof.
  induction s as [|t IH l]; simpl; wsimpl; [done|].
  by rewrite is_file_alter_append.
Qed.

Lemma mkdirs_from_files_kept p todo : forall fs base r fs',
  mkdirs_from p fs base todo = (r, fs') ->
  forall d, is_file fs d = true -> is_file fs' d = true.
Proof.
  induction todo as [|c rest IH]; simpl; intros fs base r fs' H d Hd.
  - by inversion H; subst.
  - destruct (fs !! (base ++ [c])) as [[|x]|] eqn:E.
    + eauto.
    + by inversion H; subst.
    + eapply IH; [done|]. unfold is_file in *.
      rewrite lookup_insert_ne; [done|]. intros <-. by rewrite E in Hd.
Qed.

Lemma mkdirs_from_Ok p todo : forall fs base fs',
  is_dir fs base = true ->
  mkdirs_from p fs base todo = (Ok tt, fs') ->
  is_dir fs' (base ++ todo) = true.
Proof.
  induction todo as [|c rest IH]; simpl; intros fs base fs' Hb H.
  - inversion H; subst. by rewrite app_nil_r.
  - assert (Hne : base ++ [c] <> []) by (by destruct base).
    replace (base ++ c :: rest) with ((base ++ [c]) ++ rest)
      by (by rewrite <- app_assoc).
    destruct (fs !! (base ++ [c])) as [[|x]|] eqn:E; [| done |].
    + eapply IH; [|done]. unfold is_dir. rewrite E.
      by destruct (base ++ [c]).
    + eapply IH; [|done]. unfold is_dir. rewrite lookup_insert_eq.
      by destruct (base ++ [c]).
Qed.

Lemma os_makedirs_nodes_kept p : preserves nodes_kept (os_makedirs p).
Proof.
  intros w. unfold os_makedirs. repeat case_match; simpl; try done.
  split; [done|]. intros d. split; intros Hd.
  - by eapply mkdirs_from_dirs_kept.
  - by eapply mkdirs_from_files_kept.
Qed.

Lemma os_makedirs_Ok p w a w' :
  os_makedirs p w = (Ok a, w') -> names_dir w' p = true.
Proof.
  unfold os_makedirs, names_dir. destruct (String.eqb p ""); [done|].
  destruct (_ || _); [done|].
  destruct (mkdirs_from _ _ _ _) as [r fs'] eqn:E. intros H.
  inversion H; subst. wsimpl. destruct a.
  by apply (mkdirs_from_Ok _ _ _ [] _ eq_refl E).
Qed.

Lemma exists_at_kept w w' p :
  nodes_kept w w' -> exists_at w p = true -> exists_at w' p = true.
Proof.
  intros [Hc Hk]. unfold exists_at, names_dir, names_file. rewrite Hc.
  destruct (String.eqb p ""); [done|]. simpl.
  intros [H|H]%orb_prop; apply orb_true_intro.
  - left. by apply Hk.
  - right. apply andb_prop in H as [-> H]. by apply Hk.
Qed.

Lemma print_nodes_kept s : preserves nodes_kept (print s).
Proof.
  intros w. rewrite print_eq. simpl. split.
  - by rewrite !stream_write_cwd.
  - intros p. by rewrite !stream_write_is_dir, !stream_write_is_file.
Qed.

(** [if not os.path.exists(p): os.makedirs(p)], then [k]: where it
    succeeds, [p] exists from then on. *)
Lemma ensure_Ok p {B} (k : M B) w b w' :
  (there <- os_path_exists p ;; when (negb there) (os_makedirs p) ;; k) w
  = (Ok b, w') ->
  exists wa, nodes_kept w wa /\ exists_at wa p = true /\ k wa = (Ok b, w').
Proof.
  unfold bind at 1, os_path_exists, gets. fold (exists_at w p).
  destruct (exists_at w p) eqn:E; cbn [negb when].
  - intros H. exists w. by split.
  - intros H. apply bind_Ok_inv in H as (a & wa & Hm & H).
    exists wa. split; [|split; [|done]].
    + apply (preserves_Ok _ _ _ _ _ (os_makedirs_nodes_kept p) Hm).
    + unfold exists_at. by rewrite (os_makedirs_Ok _ _ _ _ Hm).
Qed.

(** And where [p] exists already, nothing is done. *)
Lemma ensure_skip p {B} (k : M B) w :
  exists_at w p = true ->
  (there <- os_path_exists p ;; when (negb there) (os_makedirs p) ;; k) w
  = k w.
Proof.
  intros E. unfold bind at 1, os_path_exists, gets. fold (exists_at w p).
  by rewrite E.
Qed.

(** X1.  The resolver is idempotent: run again on the tree a successful run left,
    it succeeds with the same result, creates nothing (no directory appears
    or disappears) and finds all three of its directories in place. *)
Lemma resolve_config_idempotent prefix home w cfg w1 :
  resolve_config prefix home w = (Ok cfg, w1) ->
  exists w2,
    resolve_config prefix home w1 = (Ok cfg, w2)
    /\ (forall p, is_dir (w_fs w2) p = is_dir (w_fs w1) p)
    /\ exists_at w1 (install_root prefix home) = true
    /\ exists_at w1 (install_root prefix home +:+ "include/") = true
    /\ exists_at w1 (install_root prefix home +:+ "lib/") = true.
Proof.
  intros H. rewrite (resolve_config_Ok _ _ _ _ _ H).
  unfold resolve_config in H.
  apply bind_Ok_inv in H as (root & wa & Hroot & H).
  assert (Hr : root = install_root prefix home).
  { destruct prefix as [p|]; simpl in *.
    - inv_bind Hroot. by inv_ret Hroot.
    - by inv_ret Hroot. }
  subst root.
  apply ensure_Ok in H as (wb & Kb & Eb & H).
  apply ensure_Ok in H as (wc & Kc & Ec & H).
  apply ensure_Ok in H as (wd & Kd & Ed & H). inv_ret H.
  assert (E1 : exists_at w1 (install_root prefix home) = true).
  { eapply exists_at_kept; [|exact Eb]. by etrans. }
  assert (E2 : exists_at w1 (install_root prefix home +:+ "include/") = true).
  { by eapply exists_at_kept. }
  assert (Hrun : forall wx, nodes_kept w1 wx ->
            (there <- os_path_exists (install_root prefix home) ;;
             when (negb there) (os_makedirs (install_root prefix home)) ;;
             there <- os_path_exists (install_root prefix home +:+ "include/") ;;
             when (negb there)
               (os_makedirs (install_root prefix home +:+ "include/")) ;;
             there <- os_path_exists (install_root prefix home +:+ "lib/") ;;
             when (negb there)
               (os_makedirs (install_root prefix home +:+ "lib/")) ;;
             ret (install_root prefix home,
                  install_root prefix home +:+ "include/",
                  install_root prefix home +:+ "lib/")) wx
            = (Ok (install_root prefix home,
                   install_root prefix home +:+ "include/",
                   install_root prefix home +:+ "lib/"), wx)).
  { intros wx Kx.
    rewrite !ensure_skip; [done| by eapply exists_at_kept..]. }
  destruct prefix as [p|]; simpl in *.
  - exists (print p w1).2. split; [|split; [|done]].
    + assert (Hpr : (print p ;; ret p) w1 = (Ok p, (print p w1).2)).
      { unfold bind. by rewrite print_eq. }
      unfold resolve_config. rewrite (bind_Ok _ _ _ _ _ Hpr).
      apply Hrun, print_nodes_kept.
    + intros q. rewrite print_eq. simpl. by rewrite !stream_write_is_dir.
  - exists w1. split; [|done]. unfold resolve_config.
    rewrite (bind_Ok (ret (home +:+ "/.pymode/")) _ w1 _ w1 eq_refl).
    by apply Hrun.
Qed.

(** ** The theorems on the sample worlds *)

Lemma sample_prelude :
  prelude None Sample.home Sample.w0
  = (Ok (Sample.root, Sample.inc, Sample.lib, Sample.cur), Sample.w1).
Proof. by vm_compute. Defined.

Lemma sample_body_ok :
  try_body Sample.net_ok Sample.tools_ok Sample.home Sample.inc Sample.root
    Sample.w1 = (Ok tt, Sample.w2_ok).
Proof. by vm_compute. Defined.

Lemma sample_body_down :
  try_body Sample.net_down Sample.tools_ok Sample.home Sample.inc Sample.root
    Sample.w1 = (Raise Sample.e_down, Sample.w2_down).
Proof. by vm_compute. Defined.

Lemma sample_handler_down :
  handler Sample.cur Sample.e_down Sample.w2_down = (Ok tt, Sample.w3_down).
Proof. by vm_compute. Defined.

Lemma resolve_config_paths_witness :
  (resolve_config None Sample.home Sample.w0).1
  = Ok ("/home/u/.pymode/", "/home/u/.pymode/include/", "/home/u/.pymode/lib/")
  /\ (resolve_config (Some Sample.doc_prefix) Sample.home Sample.w_opt).1
     = Ok ("/opt/local", "/opt/localinclude/", "/opt/locallib/").
Proof.
  split.
  - destruct (resolve_config None Sample.home Sample.w0) as [r w] eqn:E.
    destruct r as [[[d i] l]|e]; [|by vm_compute in E].
    destruct (resolve_config_paths None Sample.home Sample.w0 d i l w E)
      as (-> & -> & ->). reflexivity.
  - destruct (resolve_config (Some Sample.doc_prefix) Sample.home Sample.w_opt)
      as [r w] eqn:E.
    destruct r as [[[d i] l]|e]; [|by vm_compute in E].
    destruct (resolve_config_paths _ Sample.home Sample.w_opt d i l w E)
      as (-> & -> & ->). reflexivity.
Defined.

Lemma final_message_unconditional_witness :
  (exists w3,
     install_deps Sample.net_ok Sample.tools_ok None Sample.home Sample.w0
     = (Ok tt, w3)
     /\ w_console w3 =
        w_console Sample.w2_ok +:+ colored final_message +:+ newline)
  /\ (exists w3,
        install_deps Sample.net_down Sample.tools_ok None Sample.home Sample.w0
        = (Ok tt, w3)
        /\ w_console w3 =
           w_console Sample.w3_down +:+ colored final_message +:+ newline)
  /\ install_deps Sample.net_ok Sample.tools_wipe None Sample.home Sample.w0
     = (Raise (enoent Sample.cur),
        (print (exn_str (enoent petsc_folder)) Sample.w2_wipe).2).
Proof.
  split; [|split].
  - apply (proj1 (final_message_unconditional Sample.net_ok Sample.tools_ok
                    None Sample.home Sample.w0 _ _ _ _ _ sample_prelude)
             Sample.w2_ok sample_body_ok).
  - apply (proj1 (proj2 (final_message_unconditional Sample.net_down
                           Sample.tools_ok None Sample.home Sample.w0
                           _ _ _ _ _ sample_prelude))
             Sample.e_down Sample.w2_down Sample.w3_down
             sample_body_down sample_handler_down).
  - apply (proj2 (proj2 (final_message_unconditional Sample.net_ok
                           Sample.tools_wipe None Sample.home Sample.w0
                           _ _ _ _ _ sample_prelude))
             (enoent petsc_folder) Sample.w2_wipe); by vm_compute.
Defined.

(** C3 fails on the code: [tar] removes the directory the script was started
    in; the [os.chdir] that follows raises inside the [try], the exception
    is caught and printed by the handler, the handler's own [os.chdir] back
    to the start directory raises, and [install_deps] ends with that
    exception: the completion message is never printed. *)
Lemma final_message_counterexample :
  let run := install_deps Sample.net_ok Sample.tools_wipe None Sample.home
               Sample.w0 in
  prelude None Sample.home Sample.w0
  = (Ok (Sample.root, Sample.inc, Sample.lib, Sample.cur), Sample.w1)
  /\ try_body Sample.net_ok Sample.tools_wipe Sample.home Sample.inc
       Sample.root Sample.w1
     = (Raise (FileNotFoundError
                 "[Errno 2] No such file or directory: 'petsc-3.12.1'"),
        Sample.w2_wipe)
  /\ run.1 = Raise (FileNotFoundError
                      "[Errno 2] No such file or directory: '/home/u/work'")
  /\ w_console run.2 =
     colored "Downloading PETSc..." +:+ newline +:+
     "[Errno 2] No such file or directory: 'petsc-3.12.1'" +:+ newline.
Proof. by vm_compute. Qed.

Lemma success_stays_in_build_dir_witness :
  w_cwd Sample.w1 = ["home"; "u"; "work"; "build"]
  /\ w_cwd (install_deps Sample.net_ok Sample.tools_ok None Sample.home
              Sample.w0).2 = ["home"; "u"; "work"; "build"]
  /\ w_cwd (install_deps Sample.net_down Sample.tools_ok None Sample.home
              Sample.w0).2 = ["home"; "u"; "work"].
Proof.
  destruct (success_stays_in_build_dir Sample.net_ok Sample.tools_ok
              None Sample.home Sample.w0 _ _ _ _ _ sample_prelude)
    as (H1 & H2 & _).
  destruct (H2 Sample.w2_ok sample_body_ok) as (_ & _ & H3 & _).
  destruct (success_stays_in_build_dir Sample.net_down Sample.tools_ok
              None Sample.home Sample.w0 _ _ _ _ _ sample_prelude)
    as (_ & _ & H4).
  split; [exact H1|]. split; [exact H3|].
  apply (H4 Sample.e_down Sample.w2_down Sample.w3_down);
    [reflexivity|exact sample_body_down|exact sample_handler_down].
Defined.

Lemma success_keeps_build_dir_witness :
  exists w3,
    install_deps Sample.net_ok Sample.tools_ok None Sample.home Sample.w0
    = (Ok tt, w3)
    /\ w_trace w3 = w_trace Sample.w2_ok
    /\ is_dir (w_fs w3) ["home"; "u"; "work"; "build"] = true.
Proof.
  destruct (success_keeps_build_dir Sample.net_ok Sample.tools_ok None
              Sample.home Sample.w0 _ _ _ _ _ _ sample_prelude sample_body_ok)
    as (w3 & H1 & H2 & _ & H3).
  exists w3. split; [exact H1|]. split; [exact H2|exact H3].
Defined.

(** C2 fails on the code: a run in which both installers and the manifest
    write succeed ends with the build directory still in place. *)
Lemma final_cleanup_counterexample :
  let run := install_deps Sample.net_ok Sample.tools_ok None Sample.home
               Sample.w0 in
  try_body Sample.net_ok Sample.tools_ok Sample.home Sample.inc Sample.root
    Sample.w1 = (Ok tt, Sample.w2_ok)
  /\ run.1 = Ok tt
  /\ is_dir (w_fs run.2) ["home"; "u"; "work"; "build"] = true
  /\ ~ In (EvRmtree ["home"; "u"; "work"; "build"]) (w_trace run.2).
Proof.
  split; [exact sample_body_ok|]. split; [by vm_compute|].
  split; [by vm_compute|]. vm_compute. intros H.
  repeat (destruct H as [H|H]; [discriminate H|]). exact H.
Qed.

Lemma failures_in_try_are_handled_witness :
  (exists e w1,
     prelude (Some Sample.bad_prefix) Sample.home Sample.w0 = (Raise e, w1)
     /\ install_deps Sample.net_ok Sample.tools_ok (Some Sample.bad_prefix)
          Sample.home Sample.w0 = (Raise e, w1))
  /\ exists w4,
       install_deps Sample.net_down Sample.tools_ok None Sample.home Sample.w0
       = (Ok tt, w4)
       /\ w_console Sample.w3_down =
          w_console Sample.w2_down +:+ "Max retries exceeded" +:+ newline
       /\ w_cwd w4 = ["home"; "u"; "work"]
       /\ is_dir (w_fs w4) ["home"; "u"; "work"; "build"] = false.
Proof.
  split.
  - destruct (failures_in_try_are_handled Sample.net_ok Sample.tools_ok
                (Some Sample.bad_prefix) Sample.home Sample.w0) as [H _].
    destruct (prelude (Some Sample.bad_prefix) Sample.home Sample.w0)
      as [r w] eqn:E.
    destruct r as [x|e]; [by vm_compute in E|].
    exists e, w. split; [reflexivity|exact (H e w eq_refl)].
  - destruct (failures_in_try_are_handled Sample.net_down Sample.tools_ok
                None Sample.home Sample.w0) as [_ H].
    destruct (H _ _ _ _ _ _ _ sample_prelude sample_body_down)
      as (w3 & w4 & Hh & Hrun & _ & Hco & _ & Hc & _ & Hd);
      [reflexivity|by vm_compute|].
    exists w4. split; [exact Hrun|].
    assert (w3 = Sample.w3_down) as <-.
    { pose proof sample_handler_down as Hs. rewrite Hh in Hs.
      revert Hs. generalize Sample.w3_down. intros x Hs.
      by inversion Hs. }
    split; [exact Hco|]. split; [exact Hc|exact Hd].
Defined.

(** C1 fails on the code: a failure while the configuration is resolved (the
    prefix lies below a regular file, so [os.makedirs] raises) leaves
    [install_deps] as an uncaught exception; the handler does not run and the
    error is not printed. *)
Lemma uncaught_failure_counterexample :
  let run := install_deps Sample.net_ok Sample.tools_ok
               (Some Sample.bad_prefix) Sample.home Sample.w0 in
  (setup_logging Sample.w0).1 = Ok tt
  /\ (resolve_config (Some Sample.bad_prefix) Sample.home
        (setup_logging Sample.w0).2).1
     = Raise (NotADirectoryError
                "[Errno 20] Not a directory: '/home/u/notes.txt/deps/'")
  /\ run.1 = Raise (NotADirectoryError
                      "[Errno 20] Not a directory: '/home/u/notes.txt/deps/'")
  /\ w_console run.2 = "/home/u/notes.txt/deps/" +:+ newline.
Proof. by vm_compute. Qed.

(** A failure deep inside an installer: [tar] unpacks nothing, so
    [os.chdir] raises in the build directory; the handler prints the error,
    goes back and removes the build directory with the archive in it. *)
Lemma sample_tar_fails :
  let run := install_deps Sample.net_ok Sample.tools_broken None Sample.home
               Sample.w0 in
  run.1 = Ok tt
  /\ w_cwd run.2 = Sample.start
  /\ is_dir (w_fs run.2) (Sample.start ++ ["build"]) = false
  /\ w_fs run.2 !! (Sample.start ++ ["build"; petsc_fname]) = None
  /\ w_console run.2 =
     colored "Downloading PETSc..." +:+ newline +:+
     "[Errno 2] No such file or directory: 'petsc-3.12.1'" +:+ newline +:+
     colored final_message +:+ newline.
Proof. by vm_compute. Qed.

(** C8 at the prefix of the script's own documentation, [/opt/local], an
    existing directory: the resolver makes [/opt/localinclude] and
    [/opt/locallib], next to the install root, and neither
    [/opt/local/include] nor [/opt/local/lib]. *)
Lemma resolver_subdirs_misplaced :
  let run := resolve_config (Some Sample.doc_prefix) Sample.home Sample.w_opt in
  run.1 = Ok ("/opt/local", "/opt/localinclude/", "/opt/locallib/")
  /\ is_dir (w_fs run.2) ["opt"; "local"] = true
  /\ is_dir (w_fs run.2) ["opt"; "localinclude"] = true
  /\ is_dir (w_fs run.2) ["opt"; "locallib"] = true
  /\ is_dir (w_fs run.2) ["opt"; "local"; "include"] = false
  /\ is_dir (w_fs run.2) ["opt"; "local"; "lib"] = false.
Proof. by vm_compute. Qed.

(** * Further properties of the script *)

(** A frame leaf for any observation that the primitive does not touch. *)
Ltac keeps_prim :=
  let w := fresh "w" in
  intros w; prim_unfold; unfold keeps; repeat case_match; wsimpl;
  rewrite ?stream_write_cwd, ?stream_write_env, ?stream_write_trace,
    ?stream_write_stdout, ?stream_write_console;
  done.

Lemma stdout_write_nodes_kept s : preserves nodes_kept (stdout_write s).
Proof.
  intros w. unfold stdout_write, modify. simpl. split.
  - by rewrite stream_write_cwd.
  - intros p. by rewrite stream_write_is_dir, stream_write_is_file.
Qed.

Ltac nodes_kept_prim :=
  first
    [ apply os_makedirs_nodes_kept
    | apply stdout_write_nodes_kept
    | let w := fresh "w" in
      intros w; prim_unfold; repeat case_match; wsimpl; reflexivity ].

(** ** The resolver only adds directories *)

(** X2.  Whatever its outcome, the configuration resolver removes nothing and
    does nothing outside the file system: the working directory, the
    environment and the trace of external actions are as before, and every
    directory and every regular file that existed still exists. *)
Theorem resolve_config_only_adds prefix home w :
  nodes_kept w (resolve_config prefix home w).2
  /\ w_env (resolve_config prefix home w).2 = w_env w
  /\ w_trace (resolve_config prefix home w).2 = w_trace w.
Proof.
  split; [|split].
  - revert w. change (preserves nodes_kept (resolve_config prefix home)).
    frame_with nodes_kept_prim.
  - revert w. change (preserves (keeps w_env) (resolve_config prefix home)).
    frame_with keeps_prim.
  - revert w. change (preserves (keeps w_trace) (resolve_config prefix home)).
    frame_with keeps_prim.
Qed.

Lemma resolve_config_idempotent_witness :
  let w1 := (resolve_config (Some Sample.doc_prefix) Sample.home
               Sample.w0).2 in
  exists w2,
    resolve_config (Some Sample.doc_prefix) Sample.home w1
    = (Ok ("/opt/local", "/opt/localinclude/", "/opt/locallib/"), w2)
    /\ (forall p, is_dir (w_fs w2) p = is_dir (w_fs w1) p)
    /\ exists_at w1 "/opt/local" = true
    /\ exists_at w1 "/opt/localinclude/" = true
    /\ exists_at w1 "/opt/locallib/" = true.
Proof.
  intros w1.
  apply (resolve_config_idempotent (Some Sample.doc_prefix) Sample.home
           Sample.w0 ("/opt/local", "/opt/localinclude/", "/opt/locallib/")
           w1).
  by vm_compute.
Defined.

(** ** The script's footprint in the environment *)

Ltac keeps_var_prim :=
  let w := fresh "w" in
  intros w; prim_unfold; unfold keeps; repeat case_match; wsimpl;
  rewrite ?stream_write_env, ?lookup_delete_ne, ?lookup_insert_ne by done;
  done.

Ltac frame_run prim :=
  lazymatch goal with
  | |- preserves _ (install_deps _ _ _ _) => unfold install_deps, try_body
  | |- preserves _ (try_body _ _ _ _ _) => unfold try_body
  | _ => idtac
  end;
  frame_with prim.

Section Footprint.

Variable http_get : string -> Res string.
Variable run_cmd :
  list string -> path -> gmap string string -> gmap path Node ->
  Res nat * gmap path Node.

(** X3.  However a run of [install_deps] ends, the only environment
    variables it can have changed are [PETSC_DIR], [PETSC_ARCH] and
    [SLEPC_DIR]: every other variable has the value, or the absence, it
    started with. *)
Theorem install_deps_other_variables prefix home w (k : string) :
  "PETSC_DIR" <> k -> "PETSC_ARCH" <> k -> "SLEPC_DIR" <> k ->
  w_env (install_deps http_get run_cmd prefix home w).2 !! k = w_env w !! k.
Proof.
  intros H1 H2 H3. revert w.
  change (preserves (keeps (fun w => w_env w !! k))
            (install_deps http_get run_cmd prefix home)).
  frame_run keeps_var_prim.
Qed.

End Footprint.

Lemma install_deps_other_variables_witness :
  w_env (install_deps Sample.net_ok Sample.tools_ok None Sample.home
           (set_env (<["HOME" := "/home/u"]> Sample.env0) Sample.w0)).2
    !! "HOME" = Some "/home/u".
Proof.
  rewrite (install_deps_other_variables Sample.net_ok Sample.tools_ok None
             Sample.home _ "HOME"); [reflexivity|discriminate..].
Defined.

(** ** The logger's footprint *)

(** X4.  Building the logger affects one file only.  Where it succeeds, every
    path but the log keeps its node, nothing is printed, and neither the
    working directory, the environment nor [sys.stdout] changes (the caller
    does the redirection).  Where the log name is taken by a directory,
    [Logger.__init__] raises [IsADirectoryError] from [open] and the world is
    as before. *)
Theorem Logger_init_footprint fname w :
  (forall lg w1,
     Logger_init fname w = (Ok lg, w1) ->
     (forall p, p <> resolve (w_cwd w) fname -> w_fs w1 !! p = w_fs w !! p)
     /\ w_console w1 = w_console w
     /\ w_cwd w1 = w_cwd w /\ w_env w1 = w_env w
     /\ w_stdout w1 = w_stdout w)
  /\ (String.eqb fname "" = false ->
      w_fs w !! resolve (w_cwd w) fname = Some Dir ->
      Logger_init fname w = (Raise (eisdir fname), w)).
Proof.
  split.
  - intros lg w1 H. unfold Logger_init in H.
    apply bind_Ok_inv in H as (t & wa & Ht & H). inv_ret Ht.
    apply bind_Ok_inv in H as (old & wb & Hold & H). inv_ret Hold.
    apply bind_Ok_inv in H as ([] & wc & Hrm & H).
    apply bind_Ok_inv in H as (q & wd & Hop & H). inv_ret H.
    rename wb into w.
    assert (Hc : (forall p, p <> resolve (w_cwd w) fname ->
                            w_fs wc !! p = w_fs w !! p)
                 /\ w_console wc = w_console w /\ w_cwd wc = w_cwd w
                 /\ w_env wc = w_env w /\ w_stdout wc = w_stdout w).
    { destruct (names_file w fname) eqn:E; cbn [when] in Hrm.
      - unfold os_remove in Hrm. rewrite E in Hrm. inversion Hrm; subst.
        wsimpl. repeat split. intros p Hp. by rewrite lookup_delete_ne.
      - by inv_ret Hrm. }
    destruct Hc as (Hf & Hco & Hcw & He & Hs).
    unfold open_file in Hop. repeat case_match; try done;
      inversion Hop; subst; wsimpl; rewrite Hcw;
      (repeat split; [|done..]); intros p Hp;
      by rewrite lookup_insert_ne, Hf.
  - intros Hne Hd. unfold Logger_init, os_path_isfile, bind, gets.
    cbv beta iota.
    assert (names_file w fname = false) as ->.
    { unfold names_file, is_file. rewrite Hd. apply andb_false_r. }
    cbn [when ret]. unfold open_file. rewrite Hne.
    assert (is_dir (w_fs w) (resolve (w_cwd w) fname) = true) as ->; [|done].
    unfold is_dir. rewrite Hd. by destruct (resolve _ _).
Qed.

Lemma Logger_init_footprint_witness :
  (let w1 := (Logger_init "install.log" Sample.w0).2 in
   w_fs w1 !! ["home"; "u"; "notes.txt"] = Some (File "todo")
   /\ w_console w1 = "")
  /\ Logger_init "work" (set_cwd ["home"; "u"] Sample.w0)
     = (Raise (IsADirectoryError "[Errno 21] Is a directory: 'work'"),
        set_cwd ["home"; "u"] Sample.w0).
Proof.
  split.
  - intros w1.
    destruct (Logger_init_footprint "install.log" Sample.w0) as [H _].
    destruct (H (Logger Console (Sample.start ++ ["install.log"])) w1)
      as (Hf & Hc & _); [by vm_compute|].
    split; [|exact Hc]. rewrite Hf; [reflexivity|discriminate].
  - destruct (Logger_init_footprint "work" (set_cwd ["home"; "u"] Sample.w0))
      as [_ H].
    apply H; reflexivity.
Defined.

(** ** The manifest writer's failures *)

(** X5.  [write_deps_file] does not create folders and does not replace a
    directory: where the manifest's name is taken by a directory it raises
    [IsADirectoryError]; where the folder for it cannot be entered it raises
    [NotADirectoryError] if a regular file is in the way and
    [FileNotFoundError] if a name on the way is missing; in all three cases
    it leaves the world as it was (no partial manifest). *)
Theorem write_deps_file_failure home inc install_dir w :
  let f := home +:+ "/" +:+ pymode_deps in
  let q := resolve (w_cwd w) f in
  (is_dir (w_fs w) q = true ->
   write_deps_file home inc install_dir w = (Raise (eisdir f), w))
  /\ (is_dir (w_fs w) q = false ->
      is_dir (w_fs w) (parent q) = false ->
      file_on_way (w_fs w) [] (parent q) = true ->
      write_deps_file home inc install_dir w = (Raise (enotdir f), w))
  /\ (is_dir (w_fs w) q = false ->
      is_dir (w_fs w) (parent q) = false ->
      file_on_way (w_fs w) [] (parent q) = false ->
      write_deps_file home inc install_dir w = (Raise (enoent f), w)).
Proof.
  intros f q. destruct (dep_fname_ok home) as [Hne Hts]. fold f in Hne, Hts.
  split; [|split].
  - intros Hq. unfold write_deps_file, bind, open_file. fold f.
    rewrite Hne. fold q. by rewrite Hq.
  - intros Hq Hp Hw. unfold write_deps_file, bind, open_file, no_folder.
    fold f. rewrite Hne, Hts. fold q. by rewrite Hq, Hp, Hw.
  - intros Hq Hp Hw. unfold write_deps_file, bind, open_file, no_folder.
    fold f. rewrite Hne, Hts. fold q. by rewrite Hq, Hp, Hw.
Qed.

Lemma write_deps_file_failure_witness :
  write_deps_file "/home" "" "/x/"
    (set_fs (<[ ["home"; ".pymode_deps"] := Dir ]> Sample.fs0) Sample.w0)
  = (Raise (IsADirectoryError
              "[Errno 21] Is a directory: '/home/.pymode_deps'"),
     set_fs (<[ ["home"; ".pymode_deps"] := Dir ]> Sample.fs0) Sample.w0)
  /\ write_deps_file "/home/u/notes.txt" "" "/x/" Sample.w0
     = (Raise (NotADirectoryError
                 "[Errno 20] Not a directory: '/home/u/notes.txt/.pymode_deps'"),
        Sample.w0)
  /\ write_deps_file "/home/nobody" "" "/x/" Sample.w0
     = (Raise (FileNotFoundError
                 "[Errno 2] No such file or directory: '/home/nobody/.pymode_deps'"),
        Sample.w0).
Proof.
  split; [|split].
  - apply (proj1 (write_deps_file_failure "/home" "" "/x/" _)). reflexivity.
  - apply (proj1 (proj2 (write_deps_file_failure "/home/u/notes.txt" "" "/x/"
                           Sample.w0))); reflexivity.
  - apply (proj2 (proj2 (write_deps_file_failure "/home/nobody" "" "/x/"
                           Sample.w0))); reflexivity.
Defined.

(** ** What [install_end] removes *)

Lemma lookup_filter_out (fs : gmap path Node) q p :
  is_prefix q p = false ->
  filter (fun kv => is_prefix q kv.1 = false) fs !! p = fs !! p.
Proof.
  intros H. destruct (fs !! p) as [n|] eqn:E.
  - by rewrite (map_lookup_filter_Some_2 _ _ _ n).
  - by rewrite map_lookup_filter_None_2; [|left].
Qed.

Lemma lookup_filter_in (fs : gmap path Node) q p :
  is_prefix q p = true ->
  filter (fun kv => is_prefix q kv.1 = false) fs !! p = None.
Proof.
  intros H. rewrite map_lookup_filter_None_2; [done|]. right.
  intros n _. simpl. by rewrite H.
Qed.

(** X6.  A call of [install_end] that returns has moved to [start_dir] and
    has removed the tree below [build_dir] (named from there) and nothing
    else: every path outside that tree keeps its node, every path inside it
    is gone, and neither the environment nor the console changes.  A
    [build_dir] that does not exist is tolerated: the file system is then
    untouched. *)
Theorem install_end_footprint start_dir bd w w' :
  install_end start_dir bd w = (Ok tt, w') ->
  let c := resolve (w_cwd w) start_dir in
  let q := resolve c bd in
  w_cwd w' = c
  /\ (forall p, is_prefix q p = false -> w_fs w' !! p = w_fs w !! p)
  /\ (exists_at (set_cwd c w) bd = true ->
      forall p, is_prefix q p = true -> w_fs w' !! p = None)
  /\ (exists_at (set_cwd c w) bd = false -> w_fs w' = w_fs w)
  /\ w_env w' = w_env w /\ w_console w' = w_console w.
Proof.
  intros H c q. unfold install_end in H.
  apply bind_Ok_inv in H as ([] & wa & Hcd & H).
  unfold os_chdir in Hcd. fold c in Hcd.
  destruct (names_dir w start_dir); [|by destruct (is_file _ _)].
  inversion Hcd; subst wa; clear Hcd.
  apply bind_Ok_inv in H as (b & wb & Hex & H).
  unfold os_path_exists, gets in Hex. inversion Hex; subst b wb; clear Hex.
  set (wa := log_event _ _) in *.
  assert (Hsame : exists_at wa bd = exists_at (set_cwd c w) bd) by done.
  fold (exists_at wa bd) in H. rewrite Hsame in H.
  destruct (exists_at (set_cwd c w) bd) eqn:E; cbn [when] in H.
  - unfold shutil_rmtree in H.
    destruct (names_dir wa bd); [|by destruct (is_file _ _)].
    inversion H; subst w'; clear H. subst wa. wsimpl. fold q.
    split; [done|]. split; [|split; [|done]].
    + intros p Hp. by apply lookup_filter_out.
    + intros _ p Hp. by apply lookup_filter_in.
  - inv_ret H. subst wa. wsimpl. by repeat split.
Qed.

Lemma install_end_footprint_witness :
  let w := (try_body Sample.net_ok Sample.tools_broken Sample.home Sample.inc
              Sample.root Sample.w1).2 in
  let w' := (install_end Sample.cur build_dir w).2 in
  is_file (w_fs w) (Sample.start ++ ["build"; petsc_fname]) = true
  /\ w_cwd w' = Sample.start
  /\ w_fs w' !! ["home"; "u"; "notes.txt"] = Some (File "todo")
  /\ w_fs w' !! (Sample.start ++ ["build"; petsc_fname]) = None
  /\ w_fs w' !! (Sample.start ++ ["build"]) = None.
Proof.
  intros w w'.
  destruct (install_end_footprint Sample.cur build_dir w w')
    as (Hc & Hout & Hin & _); [by vm_compute|].
  split; [by vm_compute|]. split; [exact Hc|]. split; [|split].
  - rewrite Hout; [by vm_compute|reflexivity].
  - apply Hin; by vm_compute.
  - apply Hin; by vm_compute.
Defined.

(** ** A failure inside the handler *)

Section HandlerFailure.

Variable http_get : string -> Res string.
Variable run_cmd :
  list string -> path -> gmap string string -> gmap path Node ->
  Res nat * gmap path Node.

(** X7.  If the directory the script was started in is no longer there when
    an exception from the [try] body is caught, the handler prints that
    exception and then fails itself: [install_end]'s [os.chdir] raises
    ([FileNotFoundError], or [NotADirectoryError] if a file has taken the
    name), nothing catches it, and [install_deps] ends with it, in the
    directory of the first failure and without the final message. *)
Theorem handler_failure_is_uncaught prefix home w0 d inc lib cur w1 e w2 :
  prelude prefix home w0 = (Ok (d, inc, lib, cur), w1) ->
  try_body http_get run_cmd home inc d w1 = (Raise e, w2) ->
  wf_path (w_cwd w0) = true ->
  is_dir (w_fs w2) (w_cwd w0) = false ->
  exists e',
    install_deps http_get run_cmd prefix home w0
    = (Raise e', (print (exn_str e) w2).2)
    /\ (e' = enoent cur \/ e' = enotdir cur)
    /\ w_cwd (print (exn_str e) w2).2 = w_cwd w2
    /\ w_console (print (exn_str e) w2).2
       = w_console w2 +:+ exn_str e +:+ newline.
Proof.
  intros Hp Hb Hwf Hgone.
  destruct (prelude_Ok _ _ _ _ _ _ Hp) as (_ & Hcur & _ & _). subst cur.
  set (cur := path_to_string (w_cwd w0)) in *.
  set (wp := (print (exn_str e) w2).2).
  assert (Hcd : exists e', os_chdir cur wp = (Raise e', wp)
                           /\ (e' = enoent cur \/ e' = enotdir cur)).
  { unfold os_chdir, names_dir. subst cur.
    rewrite path_to_string_nonempty, (resolve_path_to_string _ _ Hwf).
    subst wp. rewrite print_eq. cbn [snd].
    rewrite !stream_write_is_dir, Hgone. cbn [andb negb].
    destruct (is_file _ _); eauto. }
  destruct Hcd as (e' & Hcd & He'). exists e'.
  split; [|split; [done|split]].
  - eapply install_deps_handler_raises; [exact Hp|exact Hb|].
    unfold handler. rewrite (bind_Ok _ _ _ _ _ (print_eq _ _)).
    unfold install_end. erewrite bind_Raise; [done|].
    rewrite <- Hcd. subst wp. by rewrite print_eq.
  - subst wp. rewrite print_eq. cbn [snd]. by rewrite !stream_write_cwd.
  - apply print_console.
Qed.

End HandlerFailure.

Lemma handler_failure_is_uncaught_witness :
  exists e',
    install_deps Sample.net_ok Sample.tools_wipe None Sample.home Sample.w0
    = (Raise e',
       (print "[Errno 2] No such file or directory: 'petsc-3.12.1'"
          Sample.w2_wipe).2)
    /\ (e' = enoent Sample.cur \/ e' = enotdir Sample.cur).
Proof.
  destruct (handler_failure_is_uncaught Sample.net_ok Sample.tools_wipe None
              Sample.home Sample.w0 _ _ _ _ _
              (enoent petsc_folder) Sample.w2_wipe sample_prelude)
    as (e' & H1 & H2 & _); [by vm_compute|reflexivity|by vm_compute|].
  exists e'. split; [exact H1|exact H2].
Defined.

(** ** Exit statuses are not looked at *)

Lemma same_run_refl {A} (m : M A) : same_run m m.
Proof. by intros w. Qed.

Lemma same_run_bind {A B} (m m' : M A) (f f' : A -> M B) :
  same_run m m' -> (forall a, same_run (f a) (f' a)) ->
  same_run (bind m f) (bind m' f').
Proof.
  intros Hm Hf w. unfold bind. rewrite Hm.
  destruct (m' w) as [[a|e] w1]; [apply Hf|done].
Qed.

Lemma same_run_try {A} (m m' : M A) (h : Exn -> M A) :
  same_run m m' -> same_run (try_except m h) (try_except m' h).
Proof. intros Hm w. unfold try_except. by rewrite Hm. Qed.

(** A command whose status is thrown away runs the same whatever the
    status. *)
Lemma call_status_seq f rc argv {B} (k k' : M B) :
  same_run k k' ->
  same_run (call (with_status f rc) argv ;; k) (call rc argv ;; k').
Proof.
  intros Hk w. unfold bind, call, with_status.
  destruct (rc argv (w_cwd w) (w_env w) (w_fs w)) as [[n|e] fs']; [|done].
  apply Hk.
Qed.

Ltac same_run_steps :=
  repeat first
    [ apply call_status_seq
    | apply same_run_refl
    | apply same_run_bind; [apply same_run_refl | intros ?] ].

Section ExitStatus.

Variable http_get : string -> Res string.
Variable run_cmd :
  list string -> path -> gmap string string -> gmap path Node ->
  Res nat * gmap path Node.
Variable f : nat -> nat.

Lemma install_petsc_status d :
  same_run (install_petsc http_get (with_status f run_cmd) d)
           (install_petsc http_get run_cmd d).
Proof. unfold install_petsc. same_run_steps. Qed.

Lemma install_slepc_status d :
  same_run (install_slepc http_get (with_status f run_cmd) d)
           (install_slepc http_get run_cmd d).
Proof. unfold install_slepc. same_run_steps. Qed.

(** X8.  The exit statuses of [tar], [configure] and [make] play no part: a
    run in which every command reports another status (a failure instead of
    a success, say) but does the same to the file system is the same run,
    with the same result, the same manifest and the same messages. *)
Theorem install_deps_ignores_exit_status prefix home w :
  install_deps http_get (with_status f run_cmd) prefix home w
  = install_deps http_get run_cmd prefix home w.
Proof.
  revert w.
  change (same_run (install_deps http_get (with_status f run_cmd) prefix home)
                   (install_deps http_get run_cmd prefix home)).
  unfold install_deps.
  apply same_run_bind; [apply same_run_refl|intros _].
  apply same_run_bind; [apply same_run_refl|intros [[d inc] lib]].
  apply same_run_bind; [apply same_run_refl|intros cur].
  apply same_run_bind; [apply same_run_refl|intros _].
  apply same_run_bind; [|intros _; apply same_run_refl].
  apply same_run_try. unfold try_body.
  apply same_run_bind; [apply install_petsc_status|intros _].
  apply same_run_bind; [apply install_slepc_status|intros _].
  apply same_run_refl.
Qed.

End ExitStatus.

(** ** The protocol of a successful installer *)

(** What a successful step does to the working directory, the environment
    and the trace. *)
Lemma obs_print_message s w a w' :
  print_message s w = (Ok a, w') ->
  w_cwd w' = w_cwd w /\ w_env w' = w_env w /\ w_trace w' = w_trace w.
Proof.
  intros H. pose proof (print_message_cwd s w) as Hc.
  pose proof (print_message_env s w) as He.
  pose proof (print_message_trace s w) as Ht.
  unfold keeps in Hc. rewrite H in Hc, He, Ht. done.
Qed.

Lemma obs_open_file p mode w a w' :
  open_file p mode w = (Ok a, w') ->
  w_cwd w' = w_cwd w /\ w_env w' = w_env w
  /\ w_trace w' = w_trace w ++ [EvOpen (resolve (w_cwd w) p) mode].
Proof.
  unfold open_file. intros Hx.
  repeat case_match; try done; by inversion Hx.
Qed.

Lemma obs_file_write h msg w a w' :
  file_write h msg w = (Ok a, w') ->
  w_cwd w' = w_cwd w /\ w_env w' = w_env w /\ w_trace w' = w_trace w.
Proof. unfold file_write, modify. intros H. by inversion H. Qed.

Lemma obs_os_chdir p w a w' :
  os_chdir p w = (Ok a, w') ->
  w_cwd w' = resolve (w_cwd w) p /\ w_env w' = w_env w
  /\ w_trace w' = w_trace w ++ [EvChdir (resolve (w_cwd w) p)].
Proof.
  unfold os_chdir. intros Hx.
  repeat case_match; try done; by inversion Hx.
Qed.

Lemma obs_environ_set k v w a w' :
  environ_set k v w = (Ok a, w') ->
  w_cwd w' = w_cwd w /\ w_env w' = <[k := v]> (w_env w)
  /\ w_trace w' = w_trace w.
Proof. unfold environ_set, modify. intros H. by inversion H. Qed.

Lemma obs_shutil_rmtree p w a w' :
  shutil_rmtree p w = (Ok a, w') ->
  w_cwd w' = w_cwd w /\ w_env w' = w_env w
  /\ w_trace w' = w_trace w ++ [EvRmtree (resolve (w_cwd w) p)].
Proof.
  unfold shutil_rmtree. intros Hx.
  repeat case_match; try done; by inversion Hx.
Qed.

Lemma obs_os_remove p w a w' :
  os_remove p w = (Ok a, w') ->
  w_cwd w' = w_cwd w /\ w_env w' = w_env w /\ w_trace w' = w_trace w.
Proof.
  unfold os_remove. intros Hx.
  repeat case_match; try done; by inversion Hx.
Qed.

Section Protocol.

Variable http_get : string -> Res string.
Variable run_cmd :
  list string -> path -> gmap string string -> gmap path Node ->
  Res nat * gmap path Node.

Lemma obs_requests_get url w a w' :
  requests_get http_get url w = (Ok a, w') ->
  w_cwd w' = w_cwd w /\ w_env w' = w_env w
  /\ w_trace w' = w_trace w ++ [EvGet url (w_env w)].
Proof. unfold requests_get. intros H. by inversion H. Qed.

Lemma obs_call argv w a w' :
  call run_cmd argv w = (Ok a, w') ->
  w_cwd w' = w_cwd w /\ w_env w' = w_env w
  /\ w_trace w' = w_trace w ++ [EvCall argv (w_cwd w) (w_env w)].
Proof.
  unfold call. destruct (run_cmd _ _ _ _) as [r fs']. intros H.
  by inversion H.
Qed.

End Protocol.

Ltac obs_step H :=
  let a := fresh "a" in
  let w1 := fresh "w" in
  let Hs := fresh "Hs" in
  let Hc := fresh "Hc" in
  let He := fresh "He" in
  let Ht := fresh "Ht" in
  apply bind_Ok_inv in H as (a & w1 & Hs & H);
  first
    [ apply obs_print_message in Hs as (Hc & He & Ht)
    | apply obs_requests_get in Hs as (Hc & He & Ht)
    | apply obs_open_file in Hs as (Hc & He & Ht)
    | apply obs_file_write in Hs as (Hc & He & Ht)
    | apply obs_call in Hs as (Hc & He & Ht)
    | apply obs_os_chdir in Hs as (Hc & He & Ht)
    | apply obs_environ_set in Hs as (Hc & He & Ht)
    | apply obs_shutil_rmtree in Hs as (Hc & He & Ht)
    | apply obs_os_remove in Hs as (Hc & He & Ht) ].

Ltac obs_chain :=
  repeat match goal with
         | H : w_cwd ?x = _ |- context [w_cwd ?x] => rewrite H
         | H : w_env ?x = _ |- context [w_env ?x] => rewrite H
         | H : w_trace ?x = _ |- context [w_trace ?x] => rewrite H
         end.

Section Success.

Variable http_get : string -> Res string.
Variable run_cmd :
  list string -> path -> gmap string string -> gmap path Node ->
  Res nat * gmap path Node.

(** X9.  An [install_petsc] that returns has done exactly this, in this
    order: download, save the archive, [tar], enter the unpacked folder,
    [configure] with [--prefix=install_dir], [make all test],
    [make install], leave the folder, remove it; every command ran without
    [PETSC_DIR] and [PETSC_ARCH].  It ends in the directory it started in,
    with [PETSC_DIR] set to [install_dir] and the unpacked folder gone. *)
Theorem install_petsc_success d w w' :
  install_petsc http_get run_cmd d w = (Ok tt, w') ->
  let env1 := delete "PETSC_ARCH" (delete "PETSC_DIR" (w_env w)) in
  w_trace w' = w_trace w ++ petsc_actions d (w_cwd w) env1
  /\ w_cwd w' = w_cwd w
  /\ w_env w' = <["PETSC_DIR" := d]> env1
  /\ (forall p, is_prefix (w_cwd w ++ [petsc_folder]) p = true ->
                w_fs w' !! p = None).
Proof.
  intros H env1. unfold install_petsc in H.
  rewrite !sanitize_bind in H. wsimpl. fold env1 in H.
  set (wa := set_env env1 _) in H.
  do 14 obs_step H.
  pose proof (shutil_rmtree_Ok _ _ _ _ H) as [_ Hfs].
  apply obs_shutil_rmtree in H as (Hcz & Hez & Htz).
  rewrite <- Hcz in Hfs, Htz.
  assert (Hb : w_cwd w' = w_cwd w).
  { obs_chain. subst wa. wsimpl.
    rewrite (resolve_child _ petsc_folder) by done. apply resolve_up. }
  rewrite Hb in Hfs, Htz. clear Hcz.
  split; [|split; [done|split]].
  - rewrite Htz. obs_chain. subst wa. wsimpl.
    rewrite !(resolve_child _ petsc_folder), !(resolve_child _ petsc_fname),
      resolve_up by done.
    unfold petsc_actions. by rewrite <- !app_assoc.
  - obs_chain. by subst wa.
  - intros p Hp. rewrite Hfs, (resolve_child _ petsc_folder) by done.
    by apply lookup_filter_in.
Qed.

End Success.

Lemma install_petsc_success_witness :
  let w' := (install_petsc Sample.net_ok Sample.tools_ok Sample.root
               Sample.w1).2 in
  w_cwd w' = ["home"; "u"; "work"; "build"]
  /\ w_env w' !! "PETSC_DIR" = Some "/home/u/.pymode/"
  /\ w_env w' !! "PETSC_ARCH" = None
  /\ w_fs w' !! ["home"; "u"; "work"; "build"; petsc_folder] = None
  /\ length (w_trace w') = length (w_trace Sample.w1) + 9.
Proof.
  intros w'.
  destruct (install_petsc_success Sample.net_ok Sample.tools_ok Sample.root
              Sample.w1 w') as (Ht & Hc & He & Hf); [by vm_compute|].
  split; [rewrite Hc; by vm_compute|].
  split; [rewrite He; by vm_compute|].
  split; [rewrite He; by vm_compute|].
  split; [apply Hf; by vm_compute|].
  rewrite Ht, length_app. reflexivity.
Defined.

Lemma os_remove_Ok p w a w' :
  os_remove p w = (Ok a, w') ->
  w_fs w' = delete (resolve (w_cwd w) p) (w_fs w).
Proof.
  unfold os_remove. intros Hx.
  repeat case_match; try done; by inversion Hx.
Qed.

Section SuccessSlepc.

Variable http_get : string -> Res string.
Variable run_cmd :
  list string -> path -> gmap string string -> gmap path Node ->
  Res nat * gmap path Node.

(** X10.  An [install_slepc] that returns has done exactly this, in this
    order: download, save the archive, [tar], enter the unpacked folder,
    [configure] with [--prefix=install_dir], [make all], [make install],
    [make test] (the tests come after the installation here), leave the
    folder, remove it; every command ran in the caller's environment
    without [SLEPC_DIR], and the environment is left that way.  It ends in the
    directory it started in, with the unpacked folder and the downloaded
    archive both gone. *)
Theorem install_slepc_success d w w' :
  install_slepc http_get run_cmd d w = (Ok tt, w') ->
  let env1 := delete "SLEPC_DIR" (w_env w) in
  w_trace w' = w_trace w ++ slepc_actions d (w_cwd w) env1
  /\ w_cwd w' = w_cwd w
  /\ w_env w' = env1
  /\ (forall p, is_prefix (w_cwd w ++ [slepc_folder]) p = true ->
                w_fs w' !! p = None)
  /\ w_fs w' !! (w_cwd w ++ [slepc_fname]) = None.
Proof.
  intros H env1. unfold install_slepc in H.
  rewrite !sanitize_bind in H. fold env1 in H.
  set (wa := set_env env1 _) in H.
  do 12 obs_step H.
  apply bind_Ok_inv in H as (? & wr & Hrm & H).
  pose proof (shutil_rmtree_Ok _ _ _ _ Hrm) as [_ Hfr].
  apply obs_shutil_rmtree in Hrm as (Hcr & Her & Htr).
  pose proof (os_remove_Ok _ _ _ _ H) as Hfz.
  apply obs_os_remove in H as (Hcz & Hez & Htz).
  assert (Hb : w_cwd wr = w_cwd w).
  { obs_chain. subst wa. wsimpl.
    rewrite (resolve_child _ slepc_folder) by done. apply resolve_up. }
  rewrite Hb in Hfz. rewrite <- Hcr, Hb in Hfr, Htr.
  rewrite (resolve_child _ slepc_fname) in Hfz by done.
  rewrite (resolve_child _ slepc_folder) in Hfr, Htr by done.
  split; [|split; [congruence|split; [|split]]].
  - rewrite Htz, Htr. obs_chain. subst wa. wsimpl.
    rewrite !(resolve_child _ slepc_folder), !(resolve_child _ slepc_fname),
      resolve_up by done.
    unfold slepc_actions. by rewrite <- !app_assoc.
  - rewrite Hez, Her. obs_chain. by subst wa.
  - intros p Hp. rewrite Hfz. apply lookup_delete_None. right.
    rewrite Hfr. by apply lookup_filter_in.
  - rewrite Hfz. apply lookup_delete_eq.
Qed.

End SuccessSlepc.

Lemma install_slepc_success_witness :
  let w := (install_petsc Sample.net_ok Sample.tools_ok Sample.root
              Sample.w1).2 in
  let w' := (install_slepc Sample.net_ok Sample.tools_ok Sample.root w).2 in
  w_cwd w' = ["home"; "u"; "work"; "build"]
  /\ w_env w' !! "SLEPC_DIR" = None
  /\ w_fs w' !! ["home"; "u"; "work"; "build"; slepc_folder] = None
  /\ w_fs w' !! ["home"; "u"; "work"; "build"; slepc_fname] = None
  /\ length (w_trace w') = length (w_trace w) + 10.
Proof.
  intros w w'.
  destruct (install_slepc_success Sample.net_ok Sample.tools_ok Sample.root
              w w') as (Ht & Hc & He & Hf & Ha); [by vm_compute|].
  split; [rewrite Hc; by vm_compute|].
  split; [rewrite He; by vm_compute|].
  split; [apply Hf; by vm_compute|].
  split; [exact Ha|].
  rewrite Ht, length_app. reflexivity.
Defined.

(** ** The hand-over from PETSc to SLEPc *)

#[local] Instance env_inv_preorder P : PreOrder (env_inv P).
Proof.
  split.
  - intros w HP. split; [done|]. exists []. by rewrite app_nil_r.
  - intros x y z H1 H2 HP. destruct (H1 HP) as (Hy & e1 & T1 & F1).
    destruct (H2 Hy) as (Hz & e2 & T2 & F2). split; [done|].
    exists (e1 ++ e2). split; [by rewrite T2, T1, app_assoc|].
    by apply Forall_app.
Qed.

Lemma env_inv_same P w w' :
  w_env w' = w_env w -> w_trace w' = w_trace w -> env_inv P w w'.
Proof.
  intros He Ht HP. rewrite He. split; [done|]. exists [].
  by rewrite app_nil_r.
Qed.

Lemma env_inv_one P ev w w' :
  w_env w' = w_env w -> w_trace w' = w_trace w ++ [ev] ->
  (P (w_env w) -> runs_in P ev) -> env_inv P w w'.
Proof.
  intros He Ht Hev HP. rewrite He. split; [done|]. exists [ev].
  split; [done|]. constructor; [by apply Hev|constructor].
Qed.

(** A frame leaf for the steps that leave the environment alone. *)
Ltac env_inv_prim :=
  let w := fresh "w" in
  intros w; prim_unfold; repeat case_match; wsimpl;
  first
    [ apply env_inv_same; wsimpl;
      rewrite ?stream_write_env, ?stream_write_trace; done
    | eapply env_inv_one; [wsimpl; done | wsimpl; reflexivity |];
      let HP := fresh in
      let env := fresh in
      let E := fresh in
      intros HP env E; simpl in E; first [by inversion E; subst | done] ].

Section HandOver.

Variable http_get : string -> Res string.
Variable run_cmd :
  list string -> path -> gmap string string -> gmap path Node ->
  Res nat * gmap path Node.

(** X11.  [install_petsc] hands its install location to [install_slepc]
    through the environment: once [install_petsc install_dir] has returned,
    the download and every sub-process of the [install_slepc] that follows
    (its [configure] among them) run with [PETSC_DIR] equal to
    [install_dir], however that second installer ends. *)
Theorem slepc_runs_with_petsc_dir d w w1 :
  install_petsc http_get run_cmd d w = (Ok tt, w1) ->
  exists evs,
    w_trace (install_slepc http_get run_cmd d w1).2 = w_trace w1 ++ evs
    /\ Forall (runs_in (fun env => env !! "PETSC_DIR" = Some d)) evs.
Proof.
  intros Hp. apply install_petsc_success in Hp as (_ & _ & He & _).
  set (P := fun env : gmap string string => env !! "PETSC_DIR" = Some d).
  unfold install_slepc. rewrite sanitize_bind.
  set (wa := set_env _ w1).
  assert (HP : P (w_env wa)).
  { subst wa P. wsimpl. rewrite lookup_delete_ne by done.
    rewrite He. apply lookup_insert_eq. }
  match goal with
  | |- context [w_trace (?m wa).2] =>
      assert (Hm : preserves (env_inv P) m) by frame_with env_inv_prim;
      destruct (Hm wa HP) as (_ & evs & Ht & Hf)
  end.
  exists evs. split; [|done]. rewrite Ht. by subst wa.
Qed.

End HandOver.

Lemma slepc_runs_with_petsc_dir_witness :
  let w := (install_petsc Sample.net_ok Sample.tools_ok Sample.root
              Sample.w1).2 in
  exists evs,
    w_trace (install_slepc Sample.net_ok Sample.tools_ok Sample.root w).2
    = w_trace w ++ evs
    /\ Forall (runs_in (fun env => env !! "PETSC_DIR" = Some Sample.root))
              evs.
Proof.
  intros w.
  apply (slepc_runs_with_petsc_dir Sample.net_ok Sample.tools_ok Sample.root
           Sample.w1 w).
  by vm_compute.
Defined.

(** ** The log mirrors the console through the whole run *)

(** *** Triples *)

Lemma hoare_bind {A B} P (m : M A) (f : A -> M B) Q R E :
  hoare P m Q E -> (forall a, hoare (Q a) (f a) R E) ->
  hoare P (bind m f) R E.
Proof.
  intros Hm Hf w HP. unfold bind. specialize (Hm w HP).
  destruct (m w) as [[a|e] w1]; [by apply Hf|done].
Qed.

Lemma hoare_try {A} P (m : M A) (h : Exn -> M A) Q E' E :
  hoare P m Q E' -> (forall e, hoare E' (h e) Q E) ->
  hoare P (try_except m h) Q E.
Proof.
  intros Hm Hh w HP. unfold try_except. specialize (Hm w HP).
  destruct (m w) as [[a|e] w1]; [done|by apply Hh].
Qed.

Lemma hoare_post {A} P (m : M A) (Q Q' : A -> World -> Prop) E :
  hoare P m Q E -> (forall a w, Q a w -> Q' a w) -> hoare P m Q' E.
Proof.
  intros Hm HQ w HP. specialize (Hm w HP).
  destruct (m w) as [[a|e] w1]; [by apply HQ|done].
Qed.

Lemma hoare_pure {A} (phi : Prop) P (m : M A) Q E :
  (phi -> hoare P m Q E) -> hoare (fun w => phi /\ P w) m Q E.
Proof. intros H w [Hphi HP]. by apply H. Qed.

Lemma hoare_when P b (m : M unit) E :
  hoare P m (fun _ => P) E -> hoare P (when b m) (fun _ => P) E.
Proof. destruct b; [done|]. by intros _ w HP. Qed.

Lemma hoare_ret {A} P (a : A) E :
  hoare P (ret a) (fun x w => x = a /\ P w) E.
Proof. by intros w HP. Qed.

Lemma mirror_at_mirror l base c w : mirror_at l base c w -> mirror l base w.
Proof. by intros [? _]. Qed.

(** A step that changes nothing the invariant reads. *)
Lemma hoare_keep l base c {A} (m : M A) :
  preserves (keeps (log_view l)) m ->
  hoare (mirror_at l base c) m (fun _ => mirror_at l base c) (mirror l base).
Proof.
  intros Hm w [[Hs (x & Hf & Hc)] Hcwd]. specialize (Hm w).
  unfold keeps, log_view in Hm.
  destruct (m w) as [r w']. simpl in Hm. inversion Hm as [[H1 H2 H3 H4]].
  assert (mirror l base w').
  { split; [congruence|]. exists x. split; congruence. }
  destruct r; [split; [done|congruence]|done].
Qed.

Ltac log_view_prim :=
  let w := fresh "w" in
  intros w; prim_unfold; unfold keeps, log_view; repeat case_match; wsimpl;
  done.

(** *** The primitives *)

Lemma stream_write_mirror l base msg w :
  mirror l base w -> mirror l base (stream_write (w_stdout w) msg w).
Proof.
  intros [Hs (x & Hf & Hc)]. unfold mirror. rewrite Hs. cbn [stream_write].
  wsimpl. split; [done|]. exists (x +:+ msg). split.
  - by rewrite lookup_alter_eq, Hf.
  - by rewrite Hc, string_app_assoc.
Qed.

Lemma print_mirror l base s w :
  mirror l base w -> mirror l base (print s w).2.
Proof.
  intros Hm. rewrite print_eq. cbn [snd].
  rewrite <- (stream_write_stdout (w_stdout w) s w) at 1.
  by do 2 apply stream_write_mirror.
Qed.

Lemma hoare_print_any l base s :
  hoare (mirror l base) (print s) (fun _ => mirror l base) (mirror l base).
Proof.
  intros w Hm. pose proof (print_mirror l base s w Hm) as H.
  rewrite print_eq in *. exact H.
Qed.

Lemma hoare_print l base c s :
  hoare (mirror_at l base c) (print s)
        (fun _ => mirror_at l base c) (mirror l base).
Proof.
  intros w [Hm Hc]. pose proof (print_mirror l base s w Hm) as H.
  rewrite print_eq in *. split; [exact H|].
  cbn [snd]. by rewrite !stream_write_cwd.
Qed.

Lemma hoare_print_message l base c s :
  hoare (mirror_at l base c) (print_message s)
        (fun _ => mirror_at l base c) (mirror l base).
Proof. apply hoare_print. Qed.

Lemma hoare_os_getcwd l base c :
  hoare (mirror_at l base c) os_getcwd
        (fun a w => a = path_to_string c /\ mirror_at l base c w)
        (mirror l base).
Proof. intros w [Hm Hc]. unfold os_getcwd, gets. by rewrite Hc. Qed.

Lemma hoare_os_chdir l base c p :
  hoare (mirror_at l base c) (os_chdir p)
        (fun _ => mirror_at l base (resolve c p)) (mirror l base).
Proof.
  intros w [Hm <-]. unfold os_chdir.
  destruct (names_dir w p); [split; [exact Hm|reflexivity]|].
  by destruct (is_file _ _).
Qed.

(** An absolute path leads to the same place from everywhere. *)
Lemma hoare_os_chdir_abs l base p :
  is_abs p = true ->
  hoare (mirror l base) (os_chdir p)
        (fun _ => mirror_at l base (resolve [] p)) (mirror l base).
Proof.
  intros Ha w Hm. unfold os_chdir.
  assert (resolve (w_cwd w) p = resolve [] p) as ->.
  { unfold resolve. by rewrite Ha. }
  destruct (names_dir w p); [split; [exact Hm|reflexivity]|].
  by destruct (is_file _ _).
Qed.

Lemma hoare_file_write l base c h msg :
  h <> l ->
  hoare (mirror_at l base c) (file_write h msg)
        (fun _ => mirror_at l base c) (mirror l base).
Proof.
  intros Hne w [[Hs (x & Hf & Hc)] Hcwd]. unfold file_write, modify.
  split; [|done]. split; [done|]. exists x. wsimpl.
  by rewrite lookup_alter_ne.
Qed.

Lemma hoare_open_file l base c p mode :
  resolve c p <> l ->
  hoare (mirror_at l base c) (open_file p mode)
        (fun a w => a <> l /\ mirror_at l base c w) (mirror l base).
Proof.
  intros Hne w [Hm <-]. unfold open_file.
  destruct (String.eqb p ""); [done|].
  destruct (is_dir _ _ || trailing_slash p); [done|].
  destruct (negb _); [done|].
  destruct Hm as [Hs (x & Hf & Hc)].
  split; [done|]. split; [|done]. split; [done|]. exists x. wsimpl.
  by rewrite lookup_insert_ne.
Qed.

Lemma hoare_os_remove l base c p :
  resolve c p <> l ->
  hoare (mirror_at l base c) (os_remove p)
        (fun _ => mirror_at l base c) (mirror l base).
Proof.
  intros Hne w [Hm <-]. unfold os_remove.
  destruct (names_file w p); [|by destruct (names_dir w p)].
  destruct Hm as [Hs (x & Hf & Hc)].
  split; [|done]. split; [done|]. exists x. wsimpl.
  by rewrite lookup_delete_ne.
Qed.

Lemma hoare_shutil_rmtree l base c p :
  is_prefix (resolve c p) l = false ->
  hoare (mirror_at l base c) (shutil_rmtree p)
        (fun _ => mirror_at l base c) (mirror l base).
Proof.
  intros Hne w [Hm <-]. unfold shutil_rmtree.
  destruct (names_dir w p); [|by destruct (is_file _ _)].
  destruct Hm as [Hs (x & Hf & Hc)].
  split; [|done]. split; [done|]. exists x. wsimpl.
  by rewrite lookup_filter_out.
Qed.

Lemma mkdirs_from_lookup_Some p todo : forall fs base r fs' k n,
  mkdirs_from p fs base todo = (r, fs') ->
  fs !! k = Some n -> fs' !! k = Some n.
Proof.
  induction todo as [|c rest IH]; simpl; intros fs base r fs' k n H Hk.
  - by inversion H; subst.
  - destruct (fs !! (base ++ [c])) as [[|x]|] eqn:E.
    + eauto.
    + by inversion H; subst.
    + eapply IH; [done|]. rewrite lookup_insert_ne; [done|].
      intros <-. congruence.
Qed.

(** [os.makedirs] creates directories where nothing was; it replaces no
    file. *)
Lemma hoare_os_makedirs l base c p :
  hoare (mirror_at l base c) (os_makedirs p)
        (fun _ => mirror_at l base c) (mirror l base).
Proof.
  intros w [Hm Hcwd]. unfold os_makedirs.
  destruct (String.eqb p ""); [done|].
  destruct (is_dir _ _ || is_file _ _); [done|].
  destruct (mkdirs_from _ _ _ _) as [r fs'] eqn:E.
  destruct Hm as [Hs (x & Hf & Hc)].
  assert (mirror l base (set_fs fs' w)).
  { split; [done|]. exists x. wsimpl. split; [|done].
    by eapply mkdirs_from_lookup_Some. }
  by destruct r.
Qed.

(** *** Where the script writes: never the log *)

Lemma sibling_neq (s : path) (a b : string) r :
  a <> b -> s ++ a :: r <> s ++ [b].
Proof. intros Hab H. apply app_inv_head in H. by inversion H. Qed.

Lemma sibling_not_prefix (s : path) (a b : string) r :
  String.eqb a b = false -> is_prefix (s ++ a :: r) (s ++ [b]) = false.
Proof.
  intros Hab. induction s as [|x s IH]; simpl; [by rewrite Hab|].
  by rewrite IH, andb_false_r.
Qed.

Lemma manifest_neq_log cwd home (s : path) :
  resolve cwd (home +:+ "/" +:+ pymode_deps) <> s ++ ["install.log"].
Proof.
  intros H. pose proof (last_resolve_dep cwd home) as Hl.
  rewrite H, last_snoc in Hl. by inversion Hl.
Qed.

Section LogMirror.

Variable http_get : string -> Res string.
Variable run_cmd :
  list string -> path -> gmap string string -> gmap path Node ->
  Res nat * gmap path Node.

(** The directory the script is started in, and what the console shows at
    that time. *)
Variable start : path.
Variable base : string.

Local Abbreviation L := (start ++ ["install.log"]).
Local Abbreviation B := (start ++ ["build"]).

Hypothesis start_wf : wf_path start = true.

(** The sub-processes leave the log file alone. *)
Hypothesis run_keeps_log : forall argv cwd env fs,
  (run_cmd argv cwd env fs).2 !! L = fs !! L.

Lemma hoare_call c argv :
  hoare (mirror_at L base c) (call run_cmd argv)
        (fun _ => mirror_at L base c) (mirror L base).
Proof.
  intros w [[Hs (x & Hf & Hc)] Hcwd]. unfold call.
  pose proof (run_keeps_log argv (w_cwd w) (w_env w) (w_fs w)) as Hr.
  destruct (run_cmd _ _ _ _) as [r fs']. cbn [snd] in Hr.
  assert (mirror L base
            (set_fs fs' (log_event (EvCall argv (w_cwd w) (w_env w)) w))).
  { split; [done|]. exists x. wsimpl. split; [|done]. by rewrite Hr. }
  by destruct r.
Qed.

Ltac hkeep :=
  eapply hoare_bind; [apply hoare_keep; log_view_prim | intros ?].
Ltac hwhen_keep :=
  eapply hoare_bind;
  [apply hoare_when; apply hoare_keep; log_view_prim | intros ?].
Ltac hprint :=
  eapply hoare_bind; [apply hoare_print_message | intros ?].
Ltac hcall := eapply hoare_bind; [apply hoare_call | intros ?].
Ltac hensure :=
  eapply hoare_bind;
  [apply hoare_when; apply hoare_os_makedirs | intros ?].

Lemma install_petsc_mirror d :
  hoare (mirror_at L base B) (install_petsc http_get run_cmd d)
        (fun _ => mirror_at L base B) (mirror L base).
Proof.
  unfold install_petsc.
  hkeep. hwhen_keep. hkeep. hwhen_keep. hprint. hkeep.
  eapply hoare_bind.
  { apply hoare_open_file. rewrite resolve_child by done.
    rewrite <- app_assoc. by apply sibling_neq. }
  intros fsave. apply hoare_pure. intros Hne.
  eapply hoare_bind; [by apply hoare_file_write|intros ?].
  hcall.
  eapply hoare_bind; [apply hoare_os_chdir|intros ?].
  rewrite resolve_child by done.
  hprint. hcall. hcall. hprint. hcall. hkeep. hprint.
  eapply hoare_bind; [apply hoare_os_chdir|intros ?].
  rewrite resolve_up.
  apply hoare_shutil_rmtree. rewrite resolve_child by done.
  rewrite <- app_assoc. by apply sibling_not_prefix.
Qed.

Lemma install_slepc_mirror d :
  hoare (mirror_at L base B) (install_slepc http_get run_cmd d)
        (fun _ => mirror_at L base B) (mirror L base).
Proof.
  unfold install_slepc.
  hkeep. hwhen_keep. hprint. hkeep.
  eapply hoare_bind.
  { apply hoare_open_file. rewrite resolve_child by done.
    rewrite <- app_assoc. by apply sibling_neq. }
  intros fsave. apply hoare_pure. intros Hne.
  eapply hoare_bind; [by apply hoare_file_write|intros ?].
  hcall. hprint.
  eapply hoare_bind; [apply hoare_os_chdir|intros ?].
  rewrite resolve_child by done.
  hcall. hcall. hcall. hcall.
  eapply hoare_bind; [apply hoare_os_chdir|intros ?].
  rewrite resolve_up.
  eapply hoare_bind.
  { apply hoare_shutil_rmtree. rewrite resolve_child by done.
    rewrite <- app_assoc. by apply sibling_not_prefix. }
  intros ?. apply hoare_os_remove. rewrite resolve_child by done.
  rewrite <- app_assoc. by apply sibling_neq.
Qed.

Lemma write_deps_file_mirror c home inc d :
  hoare (mirror_at L base c) (write_deps_file home inc d)
        (fun _ => mirror_at L base c) (mirror L base).
Proof.
  unfold write_deps_file.
  eapply hoare_bind; [apply hoare_open_file, manifest_neq_log|].
  intros fdep. apply hoare_pure. intros Hne.
  eapply hoare_bind; [by apply hoare_file_write|intros ?].
  eapply hoare_bind; [by apply hoare_file_write|intros ?].
  by apply hoare_file_write.
Qed.

Lemma try_body_mirror home inc d :
  hoare (mirror_at L base B) (try_body http_get run_cmd home inc d)
        (fun _ => mirror_at L base B) (mirror L base).
Proof.
  unfold try_body.
  eapply hoare_bind; [apply install_petsc_mirror|intros ?].
  eapply hoare_bind; [apply install_slepc_mirror|intros ?].
  apply write_deps_file_mirror.
Qed.

(** The handler starts wherever the failure happened. *)
Lemma handler_mirror e :
  hoare (mirror L base) (handler (path_to_string start) e)
        (fun _ => mirror L base) (mirror L base).
Proof.
  unfold handler, install_end.
  eapply hoare_bind; [apply hoare_print_any|intros ?].
  eapply hoare_bind.
  { apply hoare_os_chdir_abs, is_abs_path_to_string. }
  intros ?. rewrite resolve_path_to_string by done.
  eapply hoare_post with (Q := fun _ => mirror_at L base start);
    [|intros ? ?; apply mirror_at_mirror].
  hkeep. apply hoare_when. apply hoare_shutil_rmtree.
  rewrite resolve_build. by apply sibling_not_prefix.
Qed.

Lemma resolve_config_mirror prefix home :
  hoare (mirror_at L base start) (resolve_config prefix home)
        (fun _ => mirror_at L base start) (mirror L base).
Proof.
  unfold resolve_config.
  eapply hoare_bind with (Q := fun _ => mirror_at L base start).
  { destruct prefix as [p|].
    - eapply hoare_bind; [apply hoare_print|intros ?].
      apply hoare_keep. log_view_prim.
    - apply hoare_keep. log_view_prim. }
  intros install_dir.
  hkeep. hensure.
  hkeep. hensure.
  hkeep. hensure.
  apply hoare_keep. log_view_prim.
Qed.

Lemma setup_workdir_mirror :
  hoare (mirror_at L base start) setup_workdir
        (fun cur w => cur = path_to_string start /\ mirror_at L base start w)
        (mirror L base).
Proof.
  unfold setup_workdir.
  eapply hoare_bind; [apply hoare_os_getcwd|].
  intros cur. apply hoare_pure. intros ->.
  hkeep. hensure.
  apply hoare_ret.
Qed.

(** Everything after "setup logging". *)
Lemma after_logging_mirror prefix home :
  hoare (mirror_at L base start)
        (cfg <- resolve_config prefix home ;;
         let '(install_dir, include_dir, lib_dir) := cfg in
         current_dir <- setup_workdir ;;
         install_begin build_dir ;;
         try_except (try_body http_get run_cmd home include_dir install_dir)
                    (handler current_dir) ;;
         print_message final_message)
        (fun _ => mirror L base) (mirror L base).
Proof.
  eapply hoare_bind; [apply resolve_config_mirror|].
  intros [[d inc] lib].
  eapply hoare_bind; [apply setup_workdir_mirror|].
  intros cur. apply hoare_pure. intros ->.
  eapply hoare_bind; [apply hoare_os_chdir|intros ?].
  rewrite resolve_build.
  eapply hoare_bind.
  { eapply hoare_try; [|apply handler_mirror].
    eapply hoare_post with (Q := fun _ => mirror_at L base B);
      [apply try_body_mirror|].
    intros ? ?; apply mirror_at_mirror. }
  intros ?. apply hoare_print_any.
Qed.

(** X12.  Provided the sub-processes do not touch [install.log], the log
    mirrors the script's output through the whole run: if "setup logging"
    succeeds in a process whose [sys.stdout] is the console, then however
    [install_deps] ends (normally, or with an exception that escapes it)
    [sys.stdout] is still the logger over the console, and [install.log] in
    the start directory holds exactly the text the script has written to the
    console since the run began.  (What the sub-processes print does not pass
    through [sys.stdout]; it is not part of the model.) *)
Theorem log_mirrors_console prefix home w0 w1 :
  w_cwd w0 = start ->
  w_console w0 = base ->
  w_stdout w0 = Console ->
  setup_logging w0 = (Ok tt, w1) ->
  let w' := (install_deps http_get run_cmd prefix home w0).2 in
  w_stdout w' = Logger Console L
  /\ exists c, w_fs w' !! L = Some (File c) /\ w_console w' = base +:+ c.
Proof.
  intros Hcwd Hbase Hout Hlog w'.
  assert (H1 : mirror_at L base start w1).
  { pose proof (setup_logging_cwd w0) as Hk. rewrite Hlog in Hk.
    unfold keeps in Hk. cbn [snd] in Hk.
    unfold setup_logging in Hlog.
    apply bind_Ok_inv in Hlog as (lg & wa & Hl & Hm).
    apply Logger_init_Ok in Hl as (-> & Hf & Hc).
    unfold modify in Hm. inversion Hm; subst w1. clear Hm.
    rewrite resolve_child, Hcwd in Hf by done.
    split; [|by rewrite <- Hcwd].
    split; [wsimpl; by rewrite Hout, resolve_child, Hcwd|].
    exists "". wsimpl. split; [done|].
    by rewrite Hc, Hbase, string_app_nil_r. }
  subst w'. unfold install_deps. rewrite (bind_Ok _ _ _ _ _ Hlog).
  pose proof (after_logging_mirror prefix home w1 H1) as H.
  by destruct (bind _ _ w1) as [[a|e] w2].
Qed.

End LogMirror.

Lemma tools_ok_keeps_log argv cwd env fs :
  (Sample.tools_ok argv cwd env fs).2 !! (Sample.start ++ ["install.log"])
  = fs !! (Sample.start ++ ["install.log"]).
Proof.
  assert (Hne : forall name : string,
            name <> "install.log" ->
            cwd ++ [name] <> Sample.start ++ ["install.log"]).
  { intros name Hn H. apply (f_equal last) in H.
    rewrite !last_snoc in H. by inversion H. }
  unfold Sample.tools_ok. repeat case_match; try done; cbn [snd];
    by apply lookup_insert_ne, Hne.
Qed.

Lemma log_mirrors_console_witness :
  let w' := (install_deps Sample.net_ok Sample.tools_ok None Sample.home
               Sample.w0).2 in
  w_stdout w' = Logger Console (Sample.start ++ ["install.log"])
  /\ exists c,
       w_fs w' !! (Sample.start ++ ["install.log"]) = Some (File c)
       /\ w_console w' = "" +:+ c.
Proof.
  apply (log_mirrors_console Sample.net_ok Sample.tools_ok Sample.start ""
           eq_refl tools_ok_keeps_log None Sample.home Sample.w0
           (setup_logging Sample.w0).2); [reflexivity..|by vm_compute].
Defined.
